(** * anet: interface and address enumeration over netlink (Android)

    A shallow embedding of [interface_android_stub.go].  The Go code is
    effectful (system calls, one process-wide variable) and partly unsafe
    (kernel structures are read through reinterpreted byte slices), so the
    embedding has three layers:

    - plain data: byte slices as [list byte], Go integers as [Z] with the
      conversions written out, records for the structs;
    - [run]: a computation that either finishes or stops on a Go run-time
      panic (index out of range, slice bounds out of range, nil
      dereference); a read through an [unsafe.Pointer] is no panic: it
      yields what the memory holds, also outside the slice the pointer was
      taken from;
    - [M]: [run] with an explicit process state (the host's world, the
      variable [customAndroidApiLevel] and the trace of requests made to
      the host).

    Everything the file does not define itself (the kernel, the [syscall]
    and [net] packages, the two functions of this package that live in
    other files) is a field of the record [Host]; the general theorems
    hold for every host, and the examples run on the host of [Sample]. *)

From Stdlib Require Import Strings.Byte.
From stdpp Require Import gmap list strings.

Local Open Scope Z_scope.

(** ** Byte slices and machine integers *)

Definition byte_to_Z (b : byte) : Z := Z.of_N (Byte.to_N b).

Definition Z_to_byte (z : Z) : byte :=
  match Byte.of_N (Z.to_N (z mod 256)) with
  | Some b => b
  | None => x00
  end.

(** Every Android ABI is little-endian: a [uint32] stored at some address
    is read back from its four bytes, least significant first. *)
Definition le_uint (bs : list byte) : Z :=
  foldr (fun b acc => byte_to_Z b + 256 * acc) 0 bs.

Definition put_le32 (v : Z) : list byte :=
  [Z_to_byte v; Z_to_byte (v / 256); Z_to_byte (v / 65536); Z_to_byte (v / 16777216)].

(** [int32(x)] for a 32-bit pattern [x]. *)
Definition int32_of_bits (x : Z) : Z :=
  if x <? 2147483648 then x else x - 4294967296.

(** Width of Go's [int]: 32 bits on arm and x86, 64 on arm64 and x86_64. *)
Inductive arch := ILP32 | LP64.

(** [int(x)] for [x : uint32]. *)
Definition int_of_uint32 (a : arch) (x : Z) : Z :=
  match a with
  | LP64 => x
  | ILP32 => int32_of_bits x
  end.

(** [make([]byte, n)] *)
Definition make (n : nat) : list byte := replicate n x00.

(** [copy(dst, src)]: the first [min(len(dst), len(src))] bytes of [dst]
    are overwritten; the result is the new contents of [dst]. *)
Definition copy (dst src : list byte) : list byte :=
  take (length dst) src ++ drop (length src) dst.

(** [bytes.Trim(s, "\x00")] *)
Definition is_nul (b : byte) : bool := Byte.eqb b x00.

Fixpoint drop_nul (l : list byte) : list byte :=
  match l with
  | b :: r => if is_nul b then drop_nul r else l
  | [] => []
  end.

Definition Trim_nul (l : list byte) : list byte :=
  reverse (drop_nul (reverse (drop_nul l))).

(** ** Run-time faults *)

Inductive fault :=
  | IndexOutOfRange        (* s[i] with i >= len(s): Go panics *)
  | SliceBoundsOutOfRange  (* s[i:] with i > len(s): Go panics *)
  | NilDereference.        (* p.f with p == nil: Go panics *)

Inductive run (A : Type) :=
  | Done (a : A)
  | Fault (f : fault).
Arguments Done {A} a.
Arguments Fault {A} f.

Definition run_bind {A B} (r : run A) (k : A -> run B) : run B :=
  match r with
  | Done a => k a
  | Fault f => Fault f
  end.

Notation "x <~ r ;; k" := (run_bind r (fun x => k))
  (at level 100, r at next level, right associativity).

(** [s[i]] on a slice *)
Definition index_byte (s : list byte) (i : nat) : run byte :=
  match s !! i with
  | Some b => Done b
  | None => Fault IndexOutOfRange
  end.

(** ** Errors *)

Inductive error :=
  | errInvalidInterface
  | errInvalidInterfaceIndex
  | errInvalidInterfaceName
  | errNoSuchInterface
  | errNoSuchMulticastInterface
  | Errno (e : Z)                               (* syscall.Errno *)
  | SyscallError (call : string) (err : error)  (* os.NewSyscallError *)
  | OpError (op net : string) (err : error)     (* &net.OpError{Op, Net, Err} *)
  | ForeignError (msg : string).                (* any error of the net package *)

Inductive result (A : Type) :=
  | Ok (a : A)
  | Err (e : error).
Arguments Ok {A} a.
Arguments Err {A} e.

Definition EINVAL : error := Errno 22.

(** The wrapping every entry point applies to a failure. *)
Definition route_error (e : error) : error := OpError "route" "ip+net" e.

(** ** The [syscall] package: constants and structures *)

Module syscall.
Definition NLMSG_DONE : Z := 3.
Definition RTM_NEWADDR : Z := 20.
Definition RTM_GETADDR : Z := 22.
Definition AF_UNSPEC : Z := 0.
Definition AF_INET : Z := 2.
Definition AF_INET6 : Z := 10.
Definition IFA_ADDRESS : Z := 1.
Definition IFA_LOCAL : Z := 2.
Definition IFNAMSIZ : nat := 16.
Definition SizeofIfAddrmsg : nat := 8.
Definition SIOCGIFNAME : Z := 0x8910.
Definition SIOCGIFFLAGS : Z := 0x8913.
Definition SIOCGIFMTU : Z := 0x8921.
Definition IFF_UP : Z := 0x1.
Definition IFF_BROADCAST : Z := 0x2.
Definition IFF_LOOPBACK : Z := 0x8.
Definition IFF_POINTOPOINT : Z := 0x10.
Definition IFF_RUNNING : Z := 0x40.
Definition IFF_MULTICAST : Z := 0x1000.
End syscall.

Record NlMsghdr := {
  NlMsghdr_Len : Z;
  NlMsghdr_Type : Z;
  NlMsghdr_Flags : Z;
  NlMsghdr_Seq : Z;
  NlMsghdr_Pid : Z
}.

(** [Data] is a Go slice: its bytes, and with [Beyond] the memory that
    follows them (the rest of the buffer the slice was cut from and what
    lies behind it), byte 0 of [Beyond] being the one right after the
    payload.  Indexing and slicing never reach [Beyond]; a read through an
    [unsafe.Pointer] into the payload does. *)
Record NetlinkMessage := {
  Header : NlMsghdr;
  Data : list byte;
  Beyond : nat -> byte
}.

Record RtAttr := {
  RtAttr_Len : Z;
  RtAttr_Type : Z
}.

Record NetlinkRouteAttr := {
  Attr : RtAttr;
  Value : list byte
}.

(** The pointer to a [syscall.IfAddrmsg] that the code obtains by casting
    [unsafe.Pointer(&m.Data[0])]: a pointer is the memory from its address
    on, byte [i] being the one at offset [i].  Taking the address of
    [m.Data[0]] is bounds-checked; the field reads (Family at offset 0,
    Prefixlen 1, Flags 2, Scope 3, Index 4..7) are not: past the end of the
    payload they yield the bytes that follow it in memory.  They are
    written as [run] computations, to be bound like the checked reads, and
    always finish. *)
Definition IfAddrmsgPtr := nat -> byte.

(** The memory at [&m.Data[0]]. *)
Definition payload_ptr (m : NetlinkMessage) : IfAddrmsgPtr :=
  fun i =>
    match Data m !! i with
    | Some b => b
    | None => Beyond m (i - length (Data m))
    end.

Definition IfAddrmsg_at (m : NetlinkMessage) : run IfAddrmsgPtr :=
  match Data m with
  | [] => Fault IndexOutOfRange
  | _ :: _ => Done (payload_ptr m)
  end.

Definition IfAddrmsg_Family (p : IfAddrmsgPtr) : run Z :=
  Done (byte_to_Z (p 0%nat)).

Definition IfAddrmsg_Prefixlen (p : IfAddrmsgPtr) : run Z :=
  Done (byte_to_Z (p 1%nat)).

Definition IfAddrmsg_Index (p : IfAddrmsgPtr) : run Z :=
  Done (le_uint [p 4%nat; p 5%nat; p 6%nat; p 7%nat]).

Arguments IfAddrmsg_at : simpl never.

(** ** The [net] package: structures and flags *)

Module net.
Definition FlagUp : Z := 1.
Definition FlagBroadcast : Z := 2.
Definition FlagLoopback : Z := 4.
Definition FlagPointToPoint : Z := 8.
Definition FlagMulticast : Z := 16.
Definition FlagRunning : Z := 32.
Definition IPv4len : Z := 4.
Definition IPv6len : Z := 16.
End net.

Record Interface := {
  Index : Z;
  MTU : Z;
  Name : string;
  HardwareAddr : list byte;
  Flags : Z
}.

Record IPNet := {
  IP : list byte;
  Mask : list byte
}.

(** The only [net.Addr] this file builds is [*net.IPNet]. *)
Definition Addr := IPNet.

Definition android11ApiLevel : Z := 30.

(** ** The host

    What the package reaches outside this file.  [W] is the state of the
    outside world (kernel, system properties); a request to it returns an
    answer and the next world, so two requests may be answered differently.
    [NetlinkRIB] and [androidDeviceApiLevel] are functions of this package
    defined in other files; the rest belongs to Go's [syscall] and [net]
    packages.  [syscall.ParseNetlinkRouteAttr] slices the payload without
    checking its length, so it may panic. *)

Record Host (W : Type) := {
  GOARCH : arch;
  NetlinkRIB : Z -> Z -> W -> result (list byte) * W;
  androidDeviceApiLevel : W -> Z * W;
  ParseNetlinkMessage : list byte -> result (list NetlinkMessage);
  ParseNetlinkRouteAttr : NetlinkMessage -> run (result (list NetlinkRouteAttr));
  Socket : Z -> Z -> Z -> W -> result Z * W;
  Close : Z -> W -> W;
  Syscall_IOCTL : Z -> Z -> list byte -> W -> (Z * list byte) * W;
  net_IPv4 : byte -> byte -> byte -> byte -> list byte;
  net_CIDRMask : Z -> Z -> list byte;
  net_Interfaces : W -> result (list Interface) * W;
  net_InterfaceAddrs : W -> result (list Addr) * W;
  net_InterfaceByIndex : Z -> W -> result Interface * W;
  Interface_Addrs : Interface -> W -> result (list Addr) * W
}.
Arguments GOARCH {W} _.
Arguments NetlinkRIB {W} _ _ _ _.
Arguments androidDeviceApiLevel {W} _ _.
Arguments ParseNetlinkMessage {W} _ _.
Arguments ParseNetlinkRouteAttr {W} _ _.
Arguments Socket {W} _ _ _ _ _.
Arguments Close {W} _ _ _.
Arguments Syscall_IOCTL {W} _ _ _ _ _.
Arguments net_IPv4 {W} _ _ _ _ _.
Arguments net_CIDRMask {W} _ _ _.
Arguments net_Interfaces {W} _ _.
Arguments net_InterfaceAddrs {W} _ _.
Arguments net_InterfaceByIndex {W} _ _ _.
Arguments Interface_Addrs {W} _ _ _.

(** Requests made to the host, in the order they are made. *)
Inductive event :=
  | CallNetlinkRIB (proto family : Z)
  | CallDeviceApiLevel
  | CallSocket
  | CallIoctl (fd req : Z)
  | CallClose (fd : Z)
  | CallNetInterfaces
  | CallNetInterfaceAddrs
  | CallNetInterfaceByIndex (index : Z)
  | CallAddrs (ifi : Interface).

Record state (W : Type) := {
  world : W;
  customAndroidApiLevel : Z;
  trace : list event
}.
Arguments world {W} _.
Arguments customAndroidApiLevel {W} _.
Arguments trace {W} _.

(** The process as it starts: [var customAndroidApiLevel = -1]. *)
Definition initial {W} (w : W) : state W :=
  {| world := w; customAndroidApiLevel := -1; trace := [] |}.

Definition M (W A : Type) : Type := state W -> run A * state W.

Definition ret {W A} (a : A) : M W A := fun s => (Done a, s).

Definition bind {W A B} (m : M W A) (k : A -> M W B) : M W B :=
  fun s =>
    match m s with
    | (Done a, s') => k a s'
    | (Fault f, s') => (Fault f, s')
    end.

Definition lift {W A} (r : run A) : M W A := fun s => (r, s).

Notation "x <- m ;; k" := (bind m (fun x => k))
  (at level 100, m at next level, right associativity).

(** One request to the host: the world moves on and the trace grows. *)
Definition request {W A} (ev : event) (f : W -> A * W) : M W A :=
  fun s =>
    let '(a, w) := f (world s) in
    (Done a, {| world := w;
                customAndroidApiLevel := customAndroidApiLevel s;
                trace := trace s ++ [ev] |}).

Definition SOCK_DGRAM : Z := 2.
Definition SOCK_CLOEXEC : Z := 0x80000.

(** [type ifReq [40]byte] *)
Definition ifReq_len : nat := 40.

(** A [uint32] written to, or read from, the address of [ifr[off]]. *)
Definition store32 (ifr : list byte) (off : nat) (v : Z) : list byte :=
  take off ifr ++ put_le32 v ++ drop (off + 4) ifr.

Definition load32 (ifr : list byte) (off : nat) : Z :=
  le_uint (take 4 (drop off ifr)).

Definition linkFlags (rawFlags : Z) : Z :=
  let f := 0 in
  let f := if Z.land rawFlags syscall.IFF_UP =? 0 then f else Z.lor f net.FlagUp in
  let f := if Z.land rawFlags syscall.IFF_RUNNING =? 0 then f else Z.lor f net.FlagRunning in
  let f := if Z.land rawFlags syscall.IFF_BROADCAST =? 0 then f else Z.lor f net.FlagBroadcast in
  let f := if Z.land rawFlags syscall.IFF_LOOPBACK =? 0 then f else Z.lor f net.FlagLoopback in
  let f := if Z.land rawFlags syscall.IFF_POINTOPOINT =? 0 then f else Z.lor f net.FlagPointToPoint in
  let f := if Z.land rawFlags syscall.IFF_MULTICAST =? 0 then f else Z.lor f net.FlagMulticast in
  f.

(** [ipv6ZoneCache.update]: the Android stub does nothing. *)
Definition ipv6ZoneCache_update (ift : list Interface) (force : bool) : bool := false.

Section Anet.
Context {W : Type} (host : Host W).

Abbreviation M := (M W).

(** *** The version gate *)

Definition SetAndroidVersion (version : N) : M unit :=
  fun s =>
    let level :=
      if decide (version = 0%N) then -1
      else if decide (11 ≤ version)%N then android11ApiLevel
      else 0 in
    (Done tt, {| world := world s; customAndroidApiLevel := level; trace := trace s |}).

Definition androidApiLevel : M Z :=
  fun s =>
    if decide (customAndroidApiLevel s ≠ -1)
    then ret (customAndroidApiLevel s) s
    else request CallDeviceApiLevel (androidDeviceApiLevel host) s.

(** *** Per-interface queries *)

Definition open_socket : M (result Z) :=
  request CallSocket
    (Socket host syscall.AF_INET (Z.lor SOCK_DGRAM SOCK_CLOEXEC) 0).

Definition close_socket (fd : Z) : M unit :=
  request (CallClose fd) (fun w => (tt, Close host fd w)).

(** [ioctl]: the error, if any, and the request buffer as the kernel
    left it. *)
Definition ioctl (fd req : Z) (ifr : list byte) : M (option error * list byte) :=
  r <- request (CallIoctl fd req) (Syscall_IOCTL host fd req ifr) ;;
  let '(e1, out) := r in
  ret (if decide (e1 ≠ 0) then Some (Errno e1) else None,
       resize ifReq_len x00 out).

Definition indexToName (index : Z) : M (result string) :=
  r <- open_socket ;;
  match r with
  | Err err => ret (Err err)
  | Ok fd =>
      let ifr := store32 (make ifReq_len) syscall.IFNAMSIZ index in
      r <- ioctl fd syscall.SIOCGIFNAME ifr ;;
      let '(err, ifr) := r in
      _ <- close_socket fd ;;
      match err with
      | Some err => ret (Err err)
      | None =>
          ret (Ok (String.string_of_list_byte (Trim_nul (take syscall.IFNAMSIZ ifr))))
      end
  end.

Definition nameToMTU (name : string) : M (result Z) :=
  if decide (syscall.IFNAMSIZ ≤ String.length name)%nat then ret (Err EINVAL)
  else
    r <- open_socket ;;
    match r with
    | Err err => ret (Err err)
    | Ok fd =>
        let ifr := copy (make ifReq_len) (String.list_byte_of_string name) in
        r <- ioctl fd syscall.SIOCGIFMTU ifr ;;
        let '(err, ifr) := r in
        _ <- close_socket fd ;;
        match err with
        | Some err => ret (Err err)
        | None => ret (Ok (int32_of_bits (load32 ifr syscall.IFNAMSIZ)))
        end
    end.

Definition nameToFlags (name : string) : M (result Z) :=
  if decide (syscall.IFNAMSIZ ≤ String.length name)%nat then ret (Err EINVAL)
  else
    r <- open_socket ;;
    match r with
    | Err err => ret (Err err)
    | Ok fd =>
        let ifr := copy (make ifReq_len) (String.list_byte_of_string name) in
        r <- ioctl fd syscall.SIOCGIFFLAGS ifr ;;
        let '(err, ifr) := r in
        _ <- close_socket fd ;;
        match err with
        | Some err => ret (Err err)
        | None => ret (Ok (linkFlags (load32 ifr syscall.IFNAMSIZ)))
        end
    end.

(** [newLink] returns nil as soon as one query fails. *)
Definition newLink (ifam : IfAddrmsgPtr) : M (option Interface) :=
  index <- lift (IfAddrmsg_Index ifam) ;;
  name <- indexToName index ;;
  match name with
  | Err _ => ret None
  | Ok name =>
      mtu <- nameToMTU name ;;
      match mtu with
      | Err _ => ret None
      | Ok mtu =>
          flags <- nameToFlags name ;;
          match flags with
          | Err _ => ret None
          | Ok flags =>
              ret (Some {| Index := int_of_uint32 (GOARCH host) index;
                           MTU := mtu;
                           Name := name;
                           HardwareAddr := [];
                           Flags := flags |})
          end
      end
  end.

(** *** The interface table *)

(** The [for _, m := range msgs] loop of [interfaceTable]; [im] is the
    map of indices already seen and [ift] the table built so far. *)
Fixpoint interfaceTable_loop (ifindex : Z) (msgs : list NetlinkMessage)
    (im : gset Z) (ift : list Interface) : M (list Interface) :=
  match msgs with
  | [] => ret ift
  | m :: rest =>
      if decide (NlMsghdr_Type (Header m) = syscall.NLMSG_DONE) then ret ift
      else if decide (NlMsghdr_Type (Header m) = syscall.RTM_NEWADDR) then
        ifam <- lift (IfAddrmsg_at m) ;;
        index <- lift (IfAddrmsg_Index ifam) ;;
        if decide (index ∈ im) then interfaceTable_loop ifindex rest im ift
        else
          let im := {[index]} ∪ im in
          if decide (ifindex = 0 ∨ ifindex = int_of_uint32 (GOARCH host) index) then
            ifi <- newLink ifam ;;
            let ift := match ifi with Some ifi => ift ++ [ifi] | None => ift end in
            if decide (ifindex = int_of_uint32 (GOARCH host) index) then ret ift
            else interfaceTable_loop ifindex rest im ift
          else interfaceTable_loop ifindex rest im ift
      else interfaceTable_loop ifindex rest im ift
  end.

Definition interfaceTable (ifindex : Z) : M (result (list Interface)) :=
  tab <- request (CallNetlinkRIB syscall.RTM_GETADDR syscall.AF_UNSPEC)
           (NetlinkRIB host syscall.RTM_GETADDR syscall.AF_UNSPEC) ;;
  match tab with
  | Err err => ret (Err (SyscallError "netlinkrib" err))
  | Ok tab =>
      match ParseNetlinkMessage host tab with
      | Err err => ret (Err (SyscallError "parsenetlinkmessage" err))
      | Ok msgs =>
          ift <- interfaceTable_loop ifindex msgs ∅ [] ;;
          ret (Ok ift)
      end
  end.

Definition interfaceByIndex (ift : list Interface) (index : Z) : result Interface :=
  match find (fun ifi => bool_decide (index = Index ifi)) ift with
  | Some ifi => Ok ifi
  | None => Err errNoSuchInterface
  end.

(** *** The address table *)

(** The first loop of [newAddr]: is there an IFA_LOCAL attribute? *)
Fixpoint ipPointToPoint (attrs : list NetlinkRouteAttr) : bool :=
  match attrs with
  | [] => false
  | a :: rest =>
      if decide (RtAttr_Type (Attr a) = syscall.IFA_LOCAL) then true
      else ipPointToPoint rest
  end.

(** The second loop of [newAddr]. *)
Fixpoint newAddr_loop (p2p : bool) (ifam : IfAddrmsgPtr)
    (attrs : list NetlinkRouteAttr) : run (option Addr) :=
  match attrs with
  | [] => Done None
  | a :: rest =>
      if p2p && bool_decide (RtAttr_Type (Attr a) = syscall.IFA_ADDRESS)
      then newAddr_loop p2p ifam rest
      else
        family <~ IfAddrmsg_Family ifam ;;
        if decide (family = syscall.AF_INET) then
          v0 <~ index_byte (Value a) 0 ;;
          v1 <~ index_byte (Value a) 1 ;;
          v2 <~ index_byte (Value a) 2 ;;
          v3 <~ index_byte (Value a) 3 ;;
          prefixlen <~ IfAddrmsg_Prefixlen ifam ;;
          Done (Some {| IP := net_IPv4 host v0 v1 v2 v3;
                        Mask := net_CIDRMask host prefixlen (8 * net.IPv4len) |})
        else if decide (family = syscall.AF_INET6) then
          prefixlen <~ IfAddrmsg_Prefixlen ifam ;;
          Done (Some {| IP := copy (make (Z.to_nat net.IPv6len)) (Value a);
                        Mask := net_CIDRMask host prefixlen (8 * net.IPv6len) |})
        else newAddr_loop p2p ifam rest
  end.

Definition newAddr (ifam : IfAddrmsgPtr) (attrs : list NetlinkRouteAttr)
    : run (option Addr) :=
  newAddr_loop (ipPointToPoint attrs) ifam attrs.

(** [ifi.Index] for [ifi *net.Interface] *)
Definition deref_Index (ifi : option Interface) : run Z :=
  match ifi with
  | Some ifi => Done (Index ifi)
  | None => Fault NilDereference
  end.

(** The loop of [addrTable]; [ifat] is the list built so far. *)
Fixpoint addrTable_loop (ift : list Interface) (ifi : option Interface)
    (msgs : list NetlinkMessage) (ifat : list Addr) : run (result (list Addr)) :=
  match msgs with
  | [] => Done (Ok ifat)
  | m :: rest =>
      if decide (NlMsghdr_Type (Header m) = syscall.NLMSG_DONE) then Done (Ok ifat)
      else if decide (NlMsghdr_Type (Header m) = syscall.RTM_NEWADDR) then
        ifam <~ IfAddrmsg_at m ;;
        selected <~ (if decide (length ift ≠ 0%nat) then Done true
                     else
                       own <~ deref_Index ifi ;;
                       index <~ IfAddrmsg_Index ifam ;;
                       Done (bool_decide (own = int_of_uint32 (GOARCH host) index))) ;;
        if selected : bool then
          attrs <~ ParseNetlinkRouteAttr host m ;;
          match attrs with
          | Err err => Done (Err (SyscallError "parsenetlinkrouteattr" err))
          | Ok attrs =>
              ifa <~ newAddr ifam attrs ;;
              addrTable_loop ift ifi rest
                (match ifa with Some ifa => ifat ++ [ifa] | None => ifat end)
          end
        else addrTable_loop ift ifi rest ifat
      else addrTable_loop ift ifi rest ifat
  end.

Definition addrTable (ift : list Interface) (ifi : option Interface)
    (msgs : list NetlinkMessage) : run (result (list Addr)) :=
  addrTable_loop ift ifi msgs [].

Definition interfaceAddrTable (ifi : option Interface) : M (result (list Addr)) :=
  tab <- request (CallNetlinkRIB syscall.RTM_GETADDR syscall.AF_UNSPEC)
           (NetlinkRIB host syscall.RTM_GETADDR syscall.AF_UNSPEC) ;;
  match tab with
  | Err err => ret (Err (SyscallError "netlinkrib" err))
  | Ok tab =>
      match ParseNetlinkMessage host tab with
      | Err err => ret (Err (SyscallError "parsenetlinkmessage" err))
      | Ok msgs =>
          ift <- match ifi with
                 | None => interfaceTable 0
                 | Some _ => ret (Ok [])
                 end ;;
          match ift with
          | Err err => ret (Err err)
          | Ok ift => lift (addrTable ift ifi msgs)
          end
      end
  end.

(** *** Entry points *)

(** What each entry point does once it has decided for netlink. *)
Definition Interfaces_netlink : M (result (list Interface)) :=
  ift <- interfaceTable 0 ;;
  match ift with
  | Err err => ret (Err (route_error err))
  | Ok ift =>
      let _ := if decide (length ift ≠ 0%nat)
               then ipv6ZoneCache_update ift true && ipv6ZoneCache_update ift true
               else false in
      ret (Ok ift)
  end.

Definition Interfaces : M (result (list Interface)) :=
  level <- androidApiLevel ;;
  if decide (level < android11ApiLevel)
  then request CallNetInterfaces (net_Interfaces host)
  else Interfaces_netlink.

Definition InterfaceAddrs_netlink : M (result (list Addr)) :=
  ifat <- interfaceAddrTable None ;;
  match ifat with
  | Err err => ret (Err (route_error err))
  | Ok ifat => ret (Ok ifat)
  end.

Definition InterfaceAddrs : M (result (list Addr)) :=
  level <- androidApiLevel ;;
  if decide (level < android11ApiLevel)
  then request CallNetInterfaceAddrs (net_InterfaceAddrs host)
  else InterfaceAddrs_netlink.

Definition InterfaceByIndex_netlink (index : Z) : M (result Interface) :=
  if decide (index ≤ 0) then ret (Err (route_error errInvalidInterfaceIndex))
  else
    ift <- interfaceTable index ;;
    match ift with
    | Err err => ret (Err (route_error err))
    | Ok ift =>
        match interfaceByIndex ift index with
        | Err err => ret (Err (route_error err))
        | Ok ifi => ret (Ok ifi)
        end
    end.

Definition InterfaceByIndex (index : Z) : M (result Interface) :=
  level <- androidApiLevel ;;
  if decide (level < android11ApiLevel)
  then request (CallNetInterfaceByIndex index) (net_InterfaceByIndex host index)
  else InterfaceByIndex_netlink index.

Definition InterfaceByName (name : string) : M (result Interface) :=
  if decide (name = "") then ret (Err (route_error errInvalidInterfaceName))
  else
    ift <- interfaceTable 0 ;;
    match ift with
    | Err err => ret (Err (route_error err))
    | Ok ift =>
        let _ := if decide (length ift ≠ 0%nat)
                 then ipv6ZoneCache_update ift true && ipv6ZoneCache_update ift true
                 else false in
        match find (fun ifi => bool_decide (name = Name ifi)) ift with
        | Some ifi => ret (Ok ifi)
        | None => ret (Err (route_error errNoSuchInterface))
        end
    end.

Definition InterfaceAddrsByInterface_netlink (ifi : Interface) : M (result (list Addr)) :=
  ifat <- interfaceAddrTable (Some ifi) ;;
  match ifat with
  | Err err => ret (Err (route_error err))
  | Ok ifat => ret (Ok ifat)
  end.

Definition InterfaceAddrsByInterface (ifi : option Interface) : M (result (list Addr)) :=
  match ifi with
  | None => ret (Err (route_error errInvalidInterface))
  | Some ifi =>
      level <- androidApiLevel ;;
      if decide (level < android11ApiLevel)
      then request (CallAddrs ifi) (Interface_Addrs host ifi)
      else InterfaceAddrsByInterface_netlink ifi
  end.

End Anet.

(** * Sequences of calls *)

(** A call of one of the five query entry points. *)
Inductive call :=
  | DoInterfaces
  | DoInterfaceAddrs
  | DoInterfaceByIndex (index : Z)
  | DoInterfaceByName (name : string)
  | DoInterfaceAddrsByInterface (ifi : option Interface).

(** The state a call leaves behind, whatever it returned. *)
Definition after_call {W} (host : Host W) (c : call) (st : state W) : state W :=
  match c with
  | DoInterfaces => (Interfaces host st).2
  | DoInterfaceAddrs => (InterfaceAddrs host st).2
  | DoInterfaceByIndex index => (InterfaceByIndex host index st).2
  | DoInterfaceByName name => (InterfaceByName host name st).2
  | DoInterfaceAddrsByInterface ifi => (InterfaceAddrsByInterface host ifi st).2
  end.

Definition after_calls {W} (host : Host W) (calls : list call) (st : state W) : state W :=
  foldl (fun st c => after_call host c st) st calls.

(** * Words for the statements

    What the theorems say about a stream, an attribute list or a
    computation, as definitions of their own. *)

Definition is_done (m : NetlinkMessage) : Prop :=
  NlMsghdr_Type (Header m) = syscall.NLMSG_DONE.

Definition is_newaddr (m : NetlinkMessage) : Prop :=
  NlMsghdr_Type (Header m) = syscall.RTM_NEWADDR.

#[global] Instance is_done_dec m : Decision (is_done m).
Proof. unfold is_done. apply _. Defined.

#[global] Instance is_newaddr_dec m : Decision (is_newaddr m).
Proof. unfold is_newaddr. apply _. Defined.

#[global] Typeclasses Opaque is_done is_newaddr.

(** The interface index a new-address record carries (bytes 4..7 of its
    payload). *)
Definition msg_index (m : NetlinkMessage) : Z :=
  le_uint (take 4 (drop 4 (Data m))).

(** A new-address record is complete when its payload holds the whole
    8-byte address header. *)
Definition full_header (m : NetlinkMessage) : Prop :=
  is_newaddr m → (syscall.SizeofIfAddrmsg ≤ length (Data m))%nat.



(** An attribute the second loop of [newAddr] passes over: an address-kind
    attribute of a record that also has a local-address attribute. *)
Definition skipped (p2p : bool) (a : NetlinkRouteAttr) : Prop :=
  p2p = true ∧ RtAttr_Type (Attr a) = syscall.IFA_ADDRESS.

#[global] Instance skipped_dec p2p a : Decision (skipped p2p a).
Proof. unfold skipped. apply _. Defined.

#[global] Typeclasses Opaque skipped.

Definition chosen_with (p2p : bool) (attrs : list NetlinkRouteAttr)
    : option NetlinkRouteAttr :=
  head (filter (fun a => ¬ skipped p2p a) attrs).

(** The attribute [newAddr] looks at first after the ones it passes over. *)
Definition chosen (attrs : list NetlinkRouteAttr) : option NetlinkRouteAttr :=
  chosen_with (ipPointToPoint attrs) attrs.

Definition has_local (attrs : list NetlinkRouteAttr) : Prop :=
  ∃ l, l ∈ attrs ∧ RtAttr_Type (Attr l) = syscall.IFA_LOCAL.

Definition is_address (a : NetlinkRouteAttr) : Prop :=
  RtAttr_Type (Attr a) = syscall.IFA_ADDRESS.

#[global] Instance is_address_dec a : Decision (is_address a).
Proof. unfold is_address. apply _. Defined.

#[global] Typeclasses Opaque is_address.

Section Resolve.
Context {W : Type} (host : Host W).







(** What [newAddr] makes of the attribute it stops at. *)
Definition build (family prefixlen : Z) (a : NetlinkRouteAttr) : run (option Addr) :=
  if decide (family = syscall.AF_INET) then
    v0 <~ index_byte (Value a) 0 ;;
    v1 <~ index_byte (Value a) 1 ;;
    v2 <~ index_byte (Value a) 2 ;;
    v3 <~ index_byte (Value a) 3 ;;
    Done (Some {| IP := net_IPv4 host v0 v1 v2 v3;
                  Mask := net_CIDRMask host prefixlen 32 |})
  else if decide (family = syscall.AF_INET6) then
    Done (Some {| IP := resize 16 x00 (Value a);
                  Mask := net_CIDRMask host prefixlen 128 |})
  else Done None.

(** No computation of this file other than [SetAndroidVersion] writes the
    override, and the trace only grows. *)
Definition frames {A} (m : M W A) : Prop :=
  ∀ st,
    customAndroidApiLevel (m st).2 = customAndroidApiLevel st ∧
    ∃ evs, trace (m st).2 = trace st ++ evs.

(** A computation that cannot stop on a fault. *)
Definition total {A} (m : M W A) : Prop :=
  ∀ st, ∃ a st', m st = (Done a, st').

End Resolve.


(** * A sample host

    A small kernel to run the code on: a netlink dump given as bytes, the
    two netlink parsers as Go's [syscall] package has them, and ioctls
    answered from three look-up functions.  Its world never changes, and
    its memory holds zeros wherever nothing else is said.  The examples
    below run on it; no theorem depends on it. *)

Module Sample.

Definition align4 (n : Z) : Z := Z.land (n + 3) (-4).

Definition put_le16 (v : Z) : list byte := [Z_to_byte v; Z_to_byte (v / 256)].

Definition pad4 (b : list byte) : list byte :=
  b ++ make (Z.to_nat (align4 (Z.of_nat (length b))) - length b).

(** One attribute on the wire: length, type, value, padding. *)
Definition rtattr (type : Z) (value : list byte) : list byte :=
  pad4 (put_le16 (4 + Z.of_nat (length value)) ++ put_le16 type ++ value).

(** The payload of a new-address record. *)
Definition ifaddrmsg (family prefixlen index : Z) (attrs : list byte) : list byte :=
  [Z_to_byte family; Z_to_byte prefixlen; x00; x00] ++ put_le32 index ++ attrs.

(** Memory that holds the bytes [following], and zeros after them. *)
Definition memory (following : list byte) : nat -> byte :=
  fun i => default x00 (following !! i).

(** A pointer to a structure with the given bytes. *)
Definition ptr (bytes : list byte) : IfAddrmsgPtr := memory bytes.

(** A decoded message with the given type and payload, with zeros behind
    the payload in memory. *)
Definition nlmsg (type : Z) (payload : list byte) : NetlinkMessage :=
  {| Header := {| NlMsghdr_Len := 16 + Z.of_nat (length payload);
                  NlMsghdr_Type := type;
                  NlMsghdr_Flags := 0;
                  NlMsghdr_Seq := 0;
                  NlMsghdr_Pid := 0 |};
     Data := payload;
     Beyond := memory [] |}.

(** The same message with the bytes [following] behind its payload. *)
Definition followed_by (m : NetlinkMessage) (following : list byte) : NetlinkMessage :=
  {| Header := Header m; Data := Data m; Beyond := memory following |}.

Definition newaddr (family prefixlen index : Z) (attrs : list byte) : NetlinkMessage :=
  nlmsg syscall.RTM_NEWADDR (ifaddrmsg family prefixlen index attrs).

Definition done : NetlinkMessage := nlmsg syscall.NLMSG_DONE [].

(** A message on the wire. *)
Definition encode (m : NetlinkMessage) : list byte :=
  pad4 (put_le32 (NlMsghdr_Len (Header m)) ++ put_le16 (NlMsghdr_Type (Header m)) ++
        put_le16 (NlMsghdr_Flags (Header m)) ++ put_le32 (NlMsghdr_Seq (Header m)) ++
        put_le32 (NlMsghdr_Pid (Header m)) ++ Data m).

Definition dump (msgs : list NetlinkMessage) : list byte :=
  concat (encode <$> msgs).

(** The messages as they lie in their dump: behind each payload come its
    padding and the messages that follow. *)
Fixpoint in_dump (msgs : list NetlinkMessage) : list NetlinkMessage :=
  match msgs with
  | [] => []
  | m :: rest =>
      followed_by m (drop (16 + length (Data m)) (encode m) ++ dump rest) :: in_dump rest
  end.

(** [syscall.ParseNetlinkMessage]: each payload is a slice of the buffer. *)
Fixpoint parse_messages (fuel : nat) (b : list byte) : result (list NetlinkMessage) :=
  match fuel with
  | O => Ok []
  | S fuel =>
      if decide (length b < 16)%nat then Ok []
      else
        let len := le_uint (take 4 b) in
        let l := Z.to_nat (align4 len) in
        if decide (len < 16 ∨ (length b < l)%nat) then Err EINVAL
        else
          match parse_messages fuel (drop l b) with
          | Err e => Err e
          | Ok ms =>
              Ok ({| Header := {| NlMsghdr_Len := len;
                                  NlMsghdr_Type := le_uint (take 2 (drop 4 b));
                                  NlMsghdr_Flags := le_uint (take 2 (drop 6 b));
                                  NlMsghdr_Seq := le_uint (take 4 (drop 8 b));
                                  NlMsghdr_Pid := le_uint (take 4 (drop 12 b)) |};
                     Data := take (Z.to_nat len - 16) (drop 16 b);
                     Beyond := memory (drop (Z.to_nat len) b) |} :: ms)
          end
  end.

(** [b[n:]] *)
Definition slice_from (b : list byte) (n : nat) : run (list byte) :=
  if decide (n ≤ length b)%nat then Done (drop n b) else Fault SliceBoundsOutOfRange.

(** The loop of [syscall.ParseNetlinkRouteAttr]: an attribute length that
    does not fit is EINVAL; stepping over the padding of the last
    attribute is not checked. *)
Fixpoint parse_attrs (fuel : nat) (b : list byte) : run (result (list NetlinkRouteAttr)) :=
  match fuel with
  | O => Done (Ok [])
  | S fuel =>
      if decide (length b < 4)%nat then Done (Ok [])
      else
        let len := le_uint (take 2 b) in
        if decide (len < 4 ∨ Z.of_nat (length b) < len) then Done (Err EINVAL)
        else
          rest <~ slice_from b (Z.to_nat (align4 len)) ;;
          attrs <~ parse_attrs fuel rest ;;
          match attrs with
          | Err e => Done (Err e)
          | Ok attrs =>
              Done (Ok ({| Attr := {| RtAttr_Len := len;
                                      RtAttr_Type := le_uint (take 2 (drop 2 b)) |};
                           Value := take (Z.to_nat len - 4) (drop 4 b) |} :: attrs))
          end
  end.

(** [syscall.ParseNetlinkRouteAttr]: the attributes start behind the
    fixed part of the payload, whose size goes by the message type. *)
Definition parse_route_attr (m : NetlinkMessage) : run (result (list NetlinkRouteAttr)) :=
  let type := NlMsghdr_Type (Header m) in
  let fixed :=
    if decide (type = 16 ∨ type = 17) then Some 16%nat          (* RTM_NEWLINK, RTM_DELLINK *)
    else if decide (type = 20 ∨ type = 21) then Some 8%nat      (* RTM_NEWADDR, RTM_DELADDR *)
    else if decide (type = 24 ∨ type = 25) then Some 12%nat     (* RTM_NEWROUTE, RTM_DELROUTE *)
    else None in
  match fixed with
  | None => Done (Err EINVAL)
  | Some n =>
      b <~ slice_from (Data m) n ;;
      parse_attrs (length b) b
  end.

Definition ENODEV : Z := 19.

(** ioctl answers: the name of an index, the MTU and the raw flags of a
    name; [None] is "no such device". *)
Definition ioctl_answer (name_of : Z → option string) (mtu_of flags_of : string → option Z)
    (req : Z) (ifr : list byte) : Z * list byte :=
  let name := String.string_of_list_byte (Trim_nul (take syscall.IFNAMSIZ ifr)) in
  if decide (req = syscall.SIOCGIFNAME) then
    match name_of (load32 ifr syscall.IFNAMSIZ) with
    | Some n => (0, copy ifr (String.list_byte_of_string n))
    | None => (ENODEV, ifr)
    end
  else if decide (req = syscall.SIOCGIFMTU) then
    match mtu_of name with
    | Some v => (0, store32 ifr syscall.IFNAMSIZ v)
    | None => (ENODEV, ifr)
    end
  else if decide (req = syscall.SIOCGIFFLAGS) then
    match flags_of name with
    | Some v => (0, store32 ifr syscall.IFNAMSIZ v)
    | None => (ENODEV, ifr)
    end
  else (22, ifr).

(** The 16-byte form of a.b.c.d and the mask of [ones] leading one bits,
    as Go's [net.IPv4] and [net.CIDRMask] build them. *)
Definition IPv4 (a b c d : byte) : list byte :=
  make 10 ++ [xff; xff; a; b; c; d].

Definition CIDRMask (ones bits : Z) : list byte :=
  if decide (bits ≠ 32 ∧ bits ≠ 128) then []
  else if decide (ones < 0 ∨ bits < ones) then []
  else
    (fun i => Z_to_byte (Z.shiftl 255 (8 - Z.min 8 (Z.max 0 (ones - 8 * Z.of_nat i)))))
      <$> seq 0 (Z.to_nat (bits / 8)).

Definition host (tab : list byte) (api : Z)
    (name_of : Z → option string) (mtu_of flags_of : string → option Z) : Host unit :=
  {| GOARCH := LP64;
     NetlinkRIB := fun _ _ w => (Ok tab, w);
     androidDeviceApiLevel := fun w => (api, w);
     ParseNetlinkMessage := fun b => parse_messages (length b) b;
     ParseNetlinkRouteAttr := parse_route_attr;
     Socket := fun _ _ _ w => (Ok 3, w);
     Close := fun _ w => w;
     Syscall_IOCTL := fun _ req ifr w => (ioctl_answer name_of mtu_of flags_of req ifr, w);
     net_IPv4 := IPv4;
     net_CIDRMask := CIDRMask;
     net_Interfaces := fun w => (Ok [], w);
     net_InterfaceAddrs := fun w => (Ok [], w);
     net_InterfaceByIndex := fun _ w => (Err (ForeignError "no such network interface"), w);
     Interface_Addrs := fun _ w => (Ok [], w) |}.

(** A kernel on which every query succeeds, and one on which none does. *)
Definition all_up (tab : list byte) (api : Z) : Host unit :=
  host tab api (fun _ => Some "wlan0") (fun _ => Some 1500) (fun _ => Some 0x1043).

Definition all_down (tab : list byte) (api : Z) : Host unit :=
  host tab api (fun _ => None) (fun _ => None) (fun _ => None).

(** Two interfaces, the second one with two addresses. *)
Definition two_links : Host unit :=
  host (dump [newaddr syscall.AF_INET 8 1 (rtattr syscall.IFA_ADDRESS [x7f; x00; x00; x01]);
              newaddr syscall.AF_INET 24 2 (rtattr syscall.IFA_ADDRESS [x0a; x00; x00; x05]);
              newaddr syscall.AF_INET 32 2 (rtattr syscall.IFA_ADDRESS [x0a; x00; x00; x05] ++
                                            rtattr syscall.IFA_LOCAL [x0a; x00; x00; x06]);
              done])
       30
       (fun i => if decide (i = 1) then Some "lo" else if decide (i = 2) then Some "wlan0" else None)
       (fun n => if decide (n = "lo") then Some 65536 else if decide (n = "wlan0") then Some 1500 else None)
       (fun n => if decide (n = "lo") then Some 0x49 else if decide (n = "wlan0") then Some 0x1043 else None).

(** The dump of one interface, index 2, with one address. *)
Definition one_link : list NetlinkMessage :=
  in_dump [newaddr syscall.AF_INET 24 2 (rtattr syscall.IFA_ADDRESS [x0a; x00; x00; x05]);
           done].

(** A process in which [SetAndroidVersion] has been called with [version]. *)
Definition started (version : N) : state unit :=
  (SetAndroidVersion version (initial tt)).2.

End Sample.

(** * More words for the statements *)

(** The requests of one per-interface query: the socket and, when there is
    one, the ioctl on it and its release. *)
Definition query_events (sock : result Z) (req : Z) : list event :=
  match sock with
  | Ok fd => [CallSocket; CallIoctl fd req; CallClose fd]
  | Err _ => [CallSocket]
  end.

(** Is one of the bits of [bit] set in [flags]? *)
Definition has_flag (flags bit : Z) : bool := negb (Z.land flags bit =? 0).

(** The raw flag bits [linkFlags] looks at. *)
Definition known_raw_flags : Z :=
  Z.lor syscall.IFF_UP (Z.lor syscall.IFF_RUNNING (Z.lor syscall.IFF_BROADCAST
    (Z.lor syscall.IFF_LOOPBACK (Z.lor syscall.IFF_POINTOPOINT syscall.IFF_MULTICAST)))).

(** The socket of a query, as the host answers for it in world [w]. *)
Definition socket_answer {W} (host : Host W) (w : W) : result Z :=
  (Socket host syscall.AF_INET (Z.lor SOCK_DGRAM SOCK_CLOEXEC) 0 w).1.

(** A kernel that names every interface with sixteen bytes, leaving no
    room for the terminating NUL. *)
Definition long_names : Host unit :=
  Sample.host (Sample.dump Sample.one_link) 30
    (fun _ => Some "a_sixteen_b_name") (fun _ => Some 1500) (fun _ => Some 0x1043).

(** A new-address record of the interface a nonzero target asks for. *)
Definition targets (a : arch) (ifindex : Z) (m : NetlinkMessage) : Prop :=
  is_newaddr m ∧ int_of_uint32 a (msg_index m) = ifindex.

#[global] Instance targets_dec a ifindex m : Decision (targets a ifindex m).
Proof. unfold targets. apply _. Defined.

#[global] Typeclasses Opaque targets.

(** The first such record of a stream, if it comes before any end-of-dump
    record. *)
Fixpoint target_record (a : arch) (ifindex : Z) (msgs : list NetlinkMessage)
    : option NetlinkMessage :=
  match msgs with
  | [] => None
  | m :: rest =>
      if decide (is_done m) then None
      else if decide (targets a ifindex m) then Some m
      else target_record a ifindex rest
  end.

Definition is_socket (ev : event) : bool :=
  match ev with
  | CallSocket => true
  | _ => false
  end.

(** How many sockets a run of requests asked for. *)
Definition sockets_opened (evs : list event) : nat :=
  length (filter (fun ev => is_socket ev) evs).

(** A failure of one of the named stages, wrapped the way the entry points
    wrap what they return. *)
Definition stage_error (stages : list string) (e : error) : Prop :=
  ∃ stage cause, stage ∈ stages ∧ e = route_error (SyscallError stage cause).

Definition table_stages : list string := ["netlinkrib"; "parsenetlinkmessage"].

Definition address_stages : list string :=
  ["netlinkrib"; "parsenetlinkmessage"; "parsenetlinkrouteattr"].

(** A kernel whose dump is sixteen zero bytes: a header that announces a
    length of zero. *)
Definition bad_dump : Host unit :=
  Sample.host (make 16) 30 (fun _ => None) (fun _ => None) (fun _ => None).

(** A record [addrTable] looks at when it lists the addresses of the one
    interface [ifi]: anything but a new-address record of another
    interface. *)
Definition owned (a : arch) (ifi : Interface) (m : NetlinkMessage) : Prop :=
  is_newaddr m → int_of_uint32 a (msg_index m) = Index ifi.

#[global] Instance owned_dec a ifi m : Decision (owned a ifi m).
Proof. unfold owned. apply _. Defined.

#[global] Typeclasses Opaque owned.

(** What every record of the interface table looks like: no hardware
    address, a name that leaves room for the terminating NUL, flags among
    the six the translation knows, and an MTU that fits 32 signed bits. *)
Definition well_formed (ifi : Interface) : Prop :=
  HardwareAddr ifi = [] ∧
  (String.length (Name ifi) < syscall.IFNAMSIZ)%nat ∧
  0 ≤ Flags ifi < 64 ∧
  -2147483648 ≤ MTU ifi < 2147483648.

(** The records in the dump of [Sample.two_links]. *)
Definition two_links_records : list NetlinkMessage :=
  Sample.in_dump
  [Sample.newaddr syscall.AF_INET 8 1
     (Sample.rtattr syscall.IFA_ADDRESS [x7f; x00; x00; x01]);
   Sample.newaddr syscall.AF_INET 24 2
     (Sample.rtattr syscall.IFA_ADDRESS [x0a; x00; x00; x05]);
   Sample.newaddr syscall.AF_INET 32 2
     (Sample.rtattr syscall.IFA_ADDRESS [x0a; x00; x00; x05] ++
      Sample.rtattr syscall.IFA_LOCAL [x0a; x00; x00; x06]);
   Sample.done].
(** * Lemmas on bytes and integers *)

Lemma byte_to_Z_range b : 0 ≤ byte_to_Z b < 256.
Proof.
  unfold byte_to_Z. pose proof (Byte.to_N_bounded b). lia.
Qed.

Lemma le_uint_range bs : 0 ≤ le_uint bs < 256 ^ Z.of_nat (length bs).
Proof.
  induction bs as [|b bs IH]; simpl.
  - lia.
  - pose proof (byte_to_Z_range b).
    replace (Z.of_nat (S (length bs))) with (Z.succ (Z.of_nat (length bs))) by lia.
    rewrite Z.pow_succ_r by lia. lia.
Qed.


Lemma int_of_uint32_inj a x y :
  0 ≤ x < 4294967296 → 0 ≤ y < 4294967296 →
  int_of_uint32 a x = int_of_uint32 a y → x = y.
Proof.
  destruct a; simpl; [|done].
  unfold int32_of_bits. intros Hx Hy.
  destruct (Z.ltb_spec x 2147483648), (Z.ltb_spec y 2147483648); lia.
Qed.


(** * The interface table *)

Section InterfaceTable.
Context {W : Type} (host : Host W).

Lemma IfAddrmsg_at_nonempty m :
  Data m ≠ [] → IfAddrmsg_at m = Done (payload_ptr m).
Proof. unfold IfAddrmsg_at. by destruct (Data m). Qed.

Lemma IfAddrmsg_at_full m :
  (syscall.SizeofIfAddrmsg ≤ length (Data m))%nat → IfAddrmsg_at m = Done (payload_ptr m).
Proof.
  intros H. apply IfAddrmsg_at_nonempty. intros E. rewrite E in H.
  unfold syscall.SizeofIfAddrmsg in H. simpl in H. lia.
Qed.

(** With the whole header in the payload, the index read through the
    pointer is the one the payload holds. *)
Lemma IfAddrmsg_Index_full m :
  (syscall.SizeofIfAddrmsg ≤ length (Data m))%nat →
  IfAddrmsg_Index (payload_ptr m) = Done (msg_index m).
Proof.
  unfold IfAddrmsg_Index, payload_ptr, msg_index, syscall.SizeofIfAddrmsg.
  destruct (Data m) as [|b0 [|b1 [|b2 [|b3 [|b4 [|b5 [|b6 [|b7 data]]]]]]]];
    simpl; intros H; try lia.
  reflexivity.
Qed.


(** An end-of-dump record ends the loop: what follows it is never looked
    at. *)
Lemma interfaceTable_loop_done ifindex pre d post :
  is_done d →
  ∀ im ift st,
    interfaceTable_loop host ifindex (pre ++ d :: post) im ift st =
    interfaceTable_loop host ifindex pre im ift st.
Proof.
  intros Hd. induction pre as [|m pre IH]; intros im ift st; simpl.
  - by rewrite decide_True.
  - destruct (decide (NlMsghdr_Type (Header m) = syscall.NLMSG_DONE)); [done|].
    destruct (decide (NlMsghdr_Type (Header m) = syscall.RTM_NEWADDR)); [|apply IH].
    unfold bind, lift.
    destruct (IfAddrmsg_at m) as [ifam|]; [|done].
    destruct (IfAddrmsg_Index ifam) as [index|]; [|done].
    destruct (decide (index ∈ im)); [apply IH|].
    destruct (decide (ifindex = 0 ∨ _)); [|apply IH].
    destruct (newLink host ifam st) as [[ifi|] st']; [|done].
    destruct (decide (ifindex = _)); [done|apply IH].
Qed.


End InterfaceTable.

(** First occurrences: one record per index, every index kept. *)









(** * The address table *)

Section AddrTable.
Context {W : Type} (host : Host W).

Lemma addrTable_loop_done ift ifi pre d post :
  is_done d →
  ∀ ifat,
    addrTable_loop host ift ifi (pre ++ d :: post) ifat =
    addrTable_loop host ift ifi pre ifat.
Proof.
  intros Hd. induction pre as [|m pre IH]; intros ifat; simpl.
  - by rewrite decide_True.
  - destruct (decide (NlMsghdr_Type (Header m) = syscall.NLMSG_DONE)); [done|].
    destruct (decide (NlMsghdr_Type (Header m) = syscall.RTM_NEWADDR)); [|apply IH].
    destruct (IfAddrmsg_at m) as [ifam|]; [simpl|done].
    destruct (if decide (length ift ≠ 0%nat) then _ else _) as [[]|]; simpl; [|apply IH|done].
    destruct (ParseNetlinkRouteAttr host m) as [[attrs|]|]; simpl; [|done..].
    destruct (newAddr host ifam attrs) as [ifa|]; [simpl|done].
    apply IH.
Qed.

Lemma ipPointToPoint_has_local attrs :
  ipPointToPoint attrs = true ↔ has_local attrs.
Proof.
  unfold has_local. induction attrs as [|a rest IH]; simpl.
  - split; [done|]. intros (l & Hl & _). by apply elem_of_nil in Hl.
  - destruct (decide (RtAttr_Type (Attr a) = syscall.IFA_LOCAL)) as [Ha|Ha].
    + split; [|done]. intros _. exists a. split; [left|done].
    + rewrite IH. split.
      * intros (l & Hl & Ht). exists l. split; [by right|done].
      * intros (l & Hl & Ht). apply elem_of_cons in Hl as [->|Hl]; [done|].
        by exists l.
Qed.

Lemma copy_make_resize n (v : list byte) : copy (make n) v = resize n x00 v.
Proof.
  unfold copy, make. rewrite length_replicate, drop_replicate.
  revert n. induction v as [|b v IH]; intros n.
  - rewrite take_nil, resize_nil. simpl. by rewrite Nat.sub_0_r.
  - destruct n as [|n]; [done|]. simpl. by rewrite IH.
Qed.

(** The second loop stops at the first attribute it does not pass over;
    for a family other than the two it knows, it runs to the end. *)
Lemma newAddr_loop_chosen p2p ifam family prefixlen attrs :
  IfAddrmsg_Family ifam = Done family →
  IfAddrmsg_Prefixlen ifam = Done prefixlen →
  newAddr_loop host p2p ifam attrs =
  match chosen_with p2p attrs with
  | Some a => build host family prefixlen a
  | None => Done None
  end.
Proof.
  intros Hf Hp. unfold chosen_with.
  assert (∀ a, ¬ skipped p2p a → family ≠ syscall.AF_INET → family ≠ syscall.AF_INET6 →
               build host family prefixlen a = Done None) as Hother.
  { intros a _ H4 H6. unfold build. by rewrite !decide_False. }
  induction attrs as [|a rest IH]; [done|].
  cbn [newAddr_loop]. rewrite filter_cons.
  destruct (decide (¬ skipped p2p a)) as [Hk|Hk].
  - assert (p2p && bool_decide (RtAttr_Type (Attr a) = syscall.IFA_ADDRESS) = false) as ->.
    { apply not_true_is_false. intros H. apply andb_true_iff in H as [H1 H2].
      apply bool_decide_eq_true in H2. by apply Hk. }
    rewrite Hf, Hp. simpl. unfold build.
    destruct (decide (family = syscall.AF_INET)) as [H4|H4].
    { change (8 * net.IPv4len) with 32.
      by destruct (index_byte (Value a) 0), (index_byte (Value a) 1),
                  (index_byte (Value a) 2), (index_byte (Value a) 3). }
    destruct (decide (family = syscall.AF_INET6)) as [H6|H6].
    { simpl. by rewrite copy_make_resize. }
    rewrite IH. destruct (head _) as [b|] eqn:E; [|done].
    apply Hother; [|done..].
    apply head_Some_elem_of in E. by apply list_elem_of_filter in E as [? _].
  - assert (p2p && bool_decide (RtAttr_Type (Attr a) = syscall.IFA_ADDRESS) = true) as ->.
    { apply dec_stable in Hk as [-> Ha]. by rewrite bool_decide_eq_true_2. }
    apply IH.
Qed.

Lemma index_byte_take4 (v : list byte) :
  (4 ≤ length v)%nat →
  ∃ v0 v1 v2 v3,
    take 4 v = [v0; v1; v2; v3] ∧
    index_byte v 0 = Done v0 ∧ index_byte v 1 = Done v1 ∧
    index_byte v 2 = Done v2 ∧ index_byte v 3 = Done v3.
Proof.
  destruct v as [|v0 [|v1 [|v2 [|v3 v]]]]; simpl; try lia.
  intros _. by exists v0, v1, v2, v3.
Qed.

End AddrTable.

(** C2. An end-of-dump record at position P stops interface enumeration
    and address enumeration at P: the records after it are never looked at
    (the outcome, the queries made and the state are those of the stream
    cut before P), and stopping there is a normal return of what has been
    collected, not an error. *)
Theorem done_marker_stops_enumeration {W} (host : Host W)
    (pre : list NetlinkMessage) (d : NetlinkMessage) (post : list NetlinkMessage) :
  is_done d →
  (∀ ifindex im ift st,
     interfaceTable_loop host ifindex (pre ++ d :: post) im ift st =
     interfaceTable_loop host ifindex pre im ift st) ∧
  (∀ ift ifi ifat,
     addrTable_loop host ift ifi (pre ++ d :: post) ifat =
     addrTable_loop host ift ifi pre ifat) ∧
  (∀ ift ifi,
     addrTable host ift ifi (pre ++ d :: post) = addrTable host ift ifi pre) ∧
  (∀ ifindex im ift st,
     interfaceTable_loop host ifindex (d :: post) im ift st = (Done ift, st)) ∧
  (∀ ift ifi ifat,
     addrTable_loop host ift ifi (d :: post) ifat = Done (Ok ifat)).
Proof.
  intros Hd. split_and!.
  - intros. by apply interfaceTable_loop_done.
  - intros. by apply addrTable_loop_done.
  - intros. by apply addrTable_loop_done.
  - intros. simpl. by rewrite decide_True.
  - intros. simpl. by rewrite decide_True.
Qed.

Lemma done_marker_stops_enumeration_witness :
  let h := Sample.all_up [] 30 in
  let pre := [Sample.newaddr syscall.AF_INET 24 2
                (Sample.rtattr syscall.IFA_ADDRESS [x0a; x00; x00; x05])] in
  let post := [Sample.newaddr syscall.AF_INET 24 3
                 (Sample.rtattr syscall.IFA_ADDRESS [x0a; x00; x00; x07])] in
  is_done Sample.done ∧
  Index <$> match (interfaceTable_loop h 0 (pre ++ Sample.done :: post) ∅ [] (initial tt)).1 with
            | Done ift => ift
            | Fault _ => []
            end = [2] ∧
  addrTable h [] (Some {| Index := 3; MTU := 0; Name := ""; HardwareAddr := []; Flags := 0 |})
    (pre ++ Sample.done :: post) = Done (Ok []).
Proof.
  intros h pre post.
  assert (is_done Sample.done) as Hd by reflexivity.
  destruct (done_marker_stops_enumeration h pre Sample.done post Hd) as (H1 & _ & H3 & _).
  split_and!; [exact Hd| |].
  - rewrite H1. vm_compute. reflexivity.
  - rewrite H3. vm_compute. reflexivity.
Defined.

(** The worked example of the specification: two records for interface 2,
    the second one point-to-point; one interface, and both addresses. *)
Example two_records_one_interface :
  let h := Sample.all_up
             (Sample.dump
                [Sample.newaddr syscall.AF_INET 32 2
                   (Sample.rtattr syscall.IFA_ADDRESS [x0a; x00; x00; x05]);
                 Sample.newaddr syscall.AF_INET 32 2
                   (Sample.rtattr syscall.IFA_LOCAL [x0a; x00; x00; x06] ++
                    Sample.rtattr syscall.IFA_ADDRESS [x0a; x00; x00; x05]);
                 Sample.done]) 30 in
  (Interfaces h (initial tt)).1 =
    Done (Ok [{| Index := 2; MTU := 1500; Name := "wlan0"; HardwareAddr := []; Flags := 51 |}]) ∧
  (InterfaceAddrs h (initial tt)).1 =
    Done (Ok [{| IP := Sample.IPv4 x0a x00 x00 x05; Mask := [xff; xff; xff; xff] |};
              {| IP := Sample.IPv4 x0a x00 x00 x06; Mask := [xff; xff; xff; xff] |}]).
Proof. split; vm_compute; reflexivity. Qed.

(** C7. Resolving the empty name fails with the invalid-name error, and
    nothing has been asked of the host by then: the world and the trace of
    requests (netlink, sockets, ioctls, API level) are those the call
    started with; the whole state is. *)
Theorem InterfaceByName_empty_name {W} (host : Host W) (st : state W) :
  (InterfaceByName host "" st).1 =
    Done (Err (OpError "route" "ip+net" errInvalidInterfaceName)) ∧
  trace (InterfaceByName host "" st).2 = trace st ∧
  world (InterfaceByName host "" st).2 = world st ∧
  (InterfaceByName host "" st).2 = st.
Proof.
  unfold InterfaceByName. rewrite decide_True by done.
  by split_and!.
Qed.

(** With a local-address attribute in the list, the attribute [newAddr]
    stops at is the first one that is not of address kind. *)
Lemma chosen_with_true_first pre l post :
  Forall is_address pre → ¬ is_address l →
  chosen_with true (pre ++ l :: post) = Some l.
Proof.
  intros Hpre Hl. unfold chosen_with.
  induction Hpre as [|p pre Hp _ IH]; simpl.
  - rewrite filter_cons_True; [done|]. unfold skipped. tauto.
  - rewrite filter_cons_False; [done|]. unfold skipped. intros H. by apply H.
Qed.

Lemma not_address_split attrs :
  (∃ l, l ∈ attrs ∧ ¬ is_address l) →
  ∃ pre a post, attrs = pre ++ a :: post ∧ Forall is_address pre ∧ ¬ is_address a.
Proof.
  induction attrs as [|x attrs IH]; intros (l & Hl & Hna).
  - by apply elem_of_nil in Hl.
  - destruct (decide (is_address x)) as [Hx|Hx].
    + apply elem_of_cons in Hl as [->|Hl]; [done|].
      destruct IH as (pre & a & post & -> & Hpre & Ha); [by exists l|].
      exists (x :: pre), a, post. split_and!; [done| |done]. by constructor.
    + exists [], x, attrs. split_and!; [done|constructor|done].
Qed.

(** C3, as the code has it. In a family-A or family-B record with a
    local-address attribute, every address-kind attribute is passed over and
    one address is emitted, built from the first attribute that is not of
    address kind; that attribute is the local-address one whenever only
    address-kind attributes precede it.  (Family A reads the first four
    bytes of the value, which must be there.) *)
Theorem newAddr_point_to_point {W} (host : Host W) (ifam : IfAddrmsgPtr)
    (family prefixlen : Z) (attrs : list NetlinkRouteAttr) :
  IfAddrmsg_Family ifam = Done family →
  IfAddrmsg_Prefixlen ifam = Done prefixlen →
  has_local attrs →
  ∃ pre a post,
    attrs = pre ++ a :: post ∧ Forall is_address pre ∧ ¬ is_address a ∧
    (∀ pre' l post',
       attrs = pre' ++ l :: post' → Forall is_address pre' →
       RtAttr_Type (Attr l) = syscall.IFA_LOCAL → a = l) ∧
    (family = syscall.AF_INET → (4 ≤ length (Value a))%nat →
     ∃ v0 v1 v2 v3,
       take 4 (Value a) = [v0; v1; v2; v3] ∧
       newAddr host ifam attrs =
       Done (Some {| IP := net_IPv4 host v0 v1 v2 v3;
                     Mask := net_CIDRMask host prefixlen 32 |})) ∧
    (family = syscall.AF_INET6 →
     newAddr host ifam attrs =
     Done (Some {| IP := resize 16 x00 (Value a);
                   Mask := net_CIDRMask host prefixlen 128 |})).
Proof.
  intros Hf Hp Hloc.
  assert (ipPointToPoint attrs = true) as Hp2p by by apply ipPointToPoint_has_local.
  destruct (not_address_split attrs) as (pre & a & post & -> & Hpre & Ha).
  { destruct Hloc as (l & Hl & Ht). exists l. split; [done|].
    unfold is_address. rewrite Ht. done. }
  assert (newAddr host ifam (pre ++ a :: post) = build host family prefixlen a) as Hnew.
  { unfold newAddr. rewrite Hp2p.
    rewrite (newAddr_loop_chosen host true ifam family prefixlen) by done.
    by rewrite chosen_with_true_first. }
  exists pre, a, post. split_and!; [done..| | |].
  - intros pre' l post' Heq Hpre' Hl.
    assert (Some a = Some l) as [= ->]; [|done].
    rewrite <- (chosen_with_true_first pre a post) by done.
    rewrite Heq. apply chosen_with_true_first; [done|].
    unfold is_address. rewrite Hl. done.
  - intros -> Hlen. rewrite Hnew. unfold build. rewrite decide_True by done.
    destruct (index_byte_take4 (Value a) Hlen) as (v0 & v1 & v2 & v3 & Ht & -> & -> & -> & ->).
    by exists v0, v1, v2, v3.
  - intros ->. rewrite Hnew. unfold build. by rewrite decide_False, decide_True.
Qed.

Lemma newAddr_point_to_point_witness :
  let h := Sample.all_up [] 30 in
  let peer := {| Attr := {| RtAttr_Len := 8; RtAttr_Type := syscall.IFA_ADDRESS |};
                 Value := [x0a; x00; x00; x05] |} in
  let loc := {| Attr := {| RtAttr_Len := 8; RtAttr_Type := syscall.IFA_LOCAL |};
                Value := [x0a; x00; x00; x06] |} in
  newAddr h (Sample.ptr (Sample.ifaddrmsg syscall.AF_INET 32 2 [])) [peer; loc] =
  Done (Some {| IP := Sample.IPv4 x0a x00 x00 x06; Mask := [xff; xff; xff; xff] |}).
Proof.
  intros h peer loc.
  destruct (newAddr_point_to_point h (Sample.ptr (Sample.ifaddrmsg syscall.AF_INET 32 2 []))
              syscall.AF_INET 32 [peer; loc])
    as (pre & a & post & _ & _ & _ & Hl & H4 & _).
  - reflexivity.
  - reflexivity.
  - exists loc. split; [|reflexivity]. right. left.
  - assert (a = loc) as -> by (apply (Hl [peer] loc []); [reflexivity|by repeat constructor|reflexivity]).
    destruct H4 as (v0 & v1 & v2 & v3 & Ht & ->); [reflexivity|simpl; lia|].
    injection Ht as <- <- <- <-. reflexivity.
Defined.

(** C3 as stated fails: with an attribute of a third kind (here the
    broadcast address, type 4) ahead of the local address, the record's one
    address is built from that attribute and not from the local one. *)
Lemma local_attribute_not_used :
  let h := Sample.all_up [] 30 in
  let m := Sample.newaddr syscall.AF_INET 24 2
             (Sample.rtattr 4 [x0a; x00; x00; xff] ++
              Sample.rtattr syscall.IFA_ADDRESS [x0a; x00; x00; x05] ++
              Sample.rtattr syscall.IFA_LOCAL [x0a; x00; x00; x06]) in
  let ifi := {| Index := 2; MTU := 1500; Name := "wlan0"; HardwareAddr := []; Flags := 51 |} in
  (∃ attrs, ParseNetlinkRouteAttr h m = Done (Ok attrs) ∧ has_local attrs ∧
            ∃ p, p ∈ attrs ∧ is_address p) ∧
  addrTable h [] (Some ifi) [m] =
    Done (Ok [{| IP := Sample.IPv4 x0a x00 x00 xff; Mask := [xff; xff; xff; x00] |}]) ∧
  addrTable h [] (Some ifi) [m] ≠
    Done (Ok [{| IP := Sample.IPv4 x0a x00 x00 x06; Mask := [xff; xff; xff; x00] |}]).
Proof.
  intros h m ifi. split_and!.
  - eexists. split; [vm_compute; reflexivity|]. split.
    + eexists. split; [right; right; left|reflexivity].
    + eexists. split; [right; left|reflexivity].
  - vm_compute. reflexivity.
  - vm_compute. discriminate.
Qed.

(** C4, as the code has it. Address construction goes by the record's
    family and by the attribute [newAddr] stops at, the first one it does
    not pass over. Family A gives [net.IPv4] of the first four bytes of
    that attribute's value with the CIDR mask of the record's prefix length
    over 32 bits, and stops on an index out of range when the value has
    fewer than four bytes; family B gives a fresh 16-byte address holding
    the value's bytes (cut or zero-padded to 16) with the mask over 128
    bits; any other family gives no address and no error, and so does a
    record of any family that has no attribute to stop at. *)
Theorem newAddr_family_dispatch {W} (host : Host W) (ifam : IfAddrmsgPtr)
    (family prefixlen : Z) (attrs : list NetlinkRouteAttr) :
  IfAddrmsg_Family ifam = Done family →
  IfAddrmsg_Prefixlen ifam = Done prefixlen →
  match chosen attrs with
  | None => newAddr host ifam attrs = Done None
  | Some a =>
      (family = syscall.AF_INET →
       ((4 ≤ length (Value a))%nat →
        ∃ v0 v1 v2 v3,
          take 4 (Value a) = [v0; v1; v2; v3] ∧
          newAddr host ifam attrs =
          Done (Some {| IP := net_IPv4 host v0 v1 v2 v3;
                        Mask := net_CIDRMask host prefixlen 32 |})) ∧
       ((length (Value a) < 4)%nat →
        newAddr host ifam attrs = Fault IndexOutOfRange)) ∧
      (family = syscall.AF_INET6 →
       ∃ ip,
         newAddr host ifam attrs =
         Done (Some {| IP := ip; Mask := net_CIDRMask host prefixlen 128 |}) ∧
         ip = resize 16 x00 (Value a) ∧
         length ip = 16%nat ∧
         (length (Value a) = 16%nat → ip = Value a)) ∧
      (family ≠ syscall.AF_INET → family ≠ syscall.AF_INET6 →
       newAddr host ifam attrs = Done None)
  end.
Proof.
  intros Hf Hp.
  assert (newAddr host ifam attrs =
          match chosen attrs with
          | Some a => build host family prefixlen a
          | None => Done None
          end) as Hnew.
  { unfold newAddr, chosen. by apply newAddr_loop_chosen. }
  destruct (chosen attrs) as [a|]; [|done].
  rewrite Hnew. unfold build. split_and!.
  - intros ->. rewrite decide_True by done. split.
    + intros Hlen.
      destruct (index_byte_take4 (Value a) Hlen)
        as (v0 & v1 & v2 & v3 & Ht & -> & -> & -> & ->).
      by exists v0, v1, v2, v3.
    + intros Hlen. unfold index_byte.
      destruct (Value a) as [|v0 [|v1 [|v2 [|v3 v]]]]; simpl in *; (done || lia).
  - intros ->. rewrite decide_False, decide_True by done.
    eexists. split_and!; [done..|apply length_resize|].
    intros Hlen. rewrite <- Hlen. apply resize_all.
  - intros H4 H6. by rewrite !decide_False.
Qed.

Lemma newAddr_family_dispatch_witness :
  let h := Sample.all_up [] 30 in
  let a4 := {| Attr := {| RtAttr_Len := 8; RtAttr_Type := syscall.IFA_ADDRESS |};
               Value := [x0a; x00; x00; x05] |} in
  let a6 := {| Attr := {| RtAttr_Len := 20; RtAttr_Type := syscall.IFA_ADDRESS |};
               Value := [xfe; x80; x00; x00; x00; x00; x00; x00;
                         x00; x00; x00; x00; x00; x00; x00; x01] |} in
  newAddr h (Sample.ptr (Sample.ifaddrmsg syscall.AF_INET 24 2 [])) [a4] =
    Done (Some {| IP := Sample.IPv4 x0a x00 x00 x05; Mask := Sample.CIDRMask 24 32 |}) ∧
  newAddr h (Sample.ptr (Sample.ifaddrmsg syscall.AF_INET6 64 2 [])) [a6] =
    Done (Some {| IP := Value a6; Mask := Sample.CIDRMask 64 128 |}) ∧
  newAddr h (Sample.ptr (Sample.ifaddrmsg 17 0 2 [])) [a4] = Done None.
Proof.
  intros h a4 a6. split_and!.
  - pose proof (newAddr_family_dispatch h (Sample.ptr (Sample.ifaddrmsg syscall.AF_INET 24 2 []))
                  syscall.AF_INET 24 [a4] eq_refl eq_refl) as H.
    change (chosen [a4]) with (Some a4) in H. destruct H as ((H4 & _) & _ & _); [reflexivity|].
    destruct H4 as (v0 & v1 & v2 & v3 & Ht & ->); [simpl; lia|].
    injection Ht as <- <- <- <-. reflexivity.
  - pose proof (newAddr_family_dispatch h (Sample.ptr (Sample.ifaddrmsg syscall.AF_INET6 64 2 []))
                  syscall.AF_INET6 64 [a6] eq_refl eq_refl) as H.
    change (chosen [a6]) with (Some a6) in H. destruct H as (_ & H6 & _).
    destruct (H6 eq_refl) as (ip & -> & _ & _ & Hip).
    rewrite Hip; reflexivity.
  - pose proof (newAddr_family_dispatch h (Sample.ptr (Sample.ifaddrmsg 17 0 2 []))
                  17 0 [a4] eq_refl eq_refl) as H.
    change (chosen [a4]) with (Some a4) in H. destruct H as (_ & _ & Hother).
    apply Hother; discriminate.
Defined.

(** C4 as stated fails for family A in three ways. The address
    [net.IPv4] builds has 16 bytes, not 4; a record without attributes
    gives no address; and an attribute value of fewer than four bytes stops
    the program on an index out of range. *)
Lemma ipv4_record_other_outcomes :
  let h := Sample.all_up [] 30 in
  let ifi := {| Index := 2; MTU := 1500; Name := "wlan0"; HardwareAddr := []; Flags := 51 |} in
  let full := Sample.newaddr syscall.AF_INET 24 2
                (Sample.rtattr syscall.IFA_ADDRESS [x0a; x00; x00; x05]) in
  let bare := Sample.newaddr syscall.AF_INET 24 2 [] in
  let short := Sample.newaddr syscall.AF_INET 24 2
                 (Sample.rtattr syscall.IFA_ADDRESS [x0a; x00]) in
  (∃ ifa, addrTable h [] (Some ifi) [full] = Done (Ok [ifa]) ∧ length (IP ifa) = 16%nat) ∧
  ParseNetlinkRouteAttr h bare = Done (Ok []) ∧
  newAddr h (payload_ptr bare) [] = Done None ∧
  addrTable h [] (Some ifi) [bare] = Done (Ok []) ∧
  addrTable h [] (Some ifi) [short] = Fault IndexOutOfRange.
Proof.
  intros h ifi full bare short. split_and!.
  - eexists. split; vm_compute; reflexivity.
  - vm_compute. reflexivity.
  - vm_compute. reflexivity.
  - vm_compute. reflexivity.
  - vm_compute. reflexivity.
Qed.

(** * What a computation may do to the process state *)

Section Frames.
Context {W : Type} (host : Host W).

Lemma frames_ret {A} (a : A) : frames (W := W) (ret a).
Proof. intros st. split; [done|]. exists []. by rewrite app_nil_r. Qed.

Lemma frames_lift {A} (r : run A) : frames (W := W) (lift r).
Proof. intros st. split; [done|]. exists []. by rewrite app_nil_r. Qed.

Lemma frames_request {A} ev (f : W → A * W) : frames (request ev f).
Proof.
  intros st. unfold request. destruct (f (world st)). split; [done|]. by eexists.
Qed.

Lemma frames_bind {A B} (m : M W A) (k : A → M W B) :
  frames m → (∀ a, frames (k a)) → frames (bind m k).
Proof.
  intros Hm Hk st. unfold bind. destruct (Hm st) as (Hc & evs & Ht).
  destruct (m st) as [[a|f] s1]; simpl in *.
  - destruct (Hk a s1) as (Hc' & evs' & Ht'). split; [congruence|].
    exists (evs ++ evs'). by rewrite Ht', Ht, app_assoc.
  - split; [done|]. by exists evs.
Qed.

Lemma total_ret {A} (a : A) : total (W := W) (ret a).
Proof. intros st. by eexists _, _. Qed.

Lemma total_request {A} ev (f : W → A * W) : total (request ev f).
Proof. intros st. unfold request. destruct (f (world st)). by eexists _, _. Qed.

Lemma total_bind {A B} (m : M W A) (k : A → M W B) :
  total m → (∀ a, total (k a)) → total (bind m k).
Proof.
  intros Hm Hk st. unfold bind. destruct (Hm st) as (a & s1 & ->). apply Hk.
Qed.

Ltac step_frames :=
  first
    [ apply frames_ret | apply frames_lift | apply frames_request
    | apply frames_bind; [|intros ?]
    | match goal with
      | |- frames (match ?x with _ => _ end) => destruct x
      end ].

Ltac step_total :=
  first
    [ apply total_ret | apply total_request
    | apply total_bind; [|intros ?]
    | match goal with
      | |- total (match ?x with _ => _ end) => destruct x
      end ].

Lemma frames_ioctl fd req ifr : frames (ioctl host fd req ifr).
Proof. unfold ioctl. repeat step_frames. Qed.

Lemma total_ioctl fd req ifr : total (ioctl host fd req ifr).
Proof. unfold ioctl. repeat step_total. Qed.

Lemma frames_indexToName index : frames (indexToName host index).
Proof.
  unfold indexToName, open_socket, close_socket.
  repeat first [apply frames_ioctl | step_frames].
Qed.

Lemma total_indexToName index : total (indexToName host index).
Proof.
  unfold indexToName, open_socket, close_socket.
  repeat first [apply total_ioctl | step_total].
Qed.

Lemma frames_nameToMTU name : frames (nameToMTU host name).
Proof.
  unfold nameToMTU, open_socket, close_socket.
  repeat first [apply frames_ioctl | step_frames].
Qed.

Lemma total_nameToMTU name : total (nameToMTU host name).
Proof.
  unfold nameToMTU, open_socket, close_socket.
  repeat first [apply total_ioctl | step_total].
Qed.

Lemma frames_nameToFlags name : frames (nameToFlags host name).
Proof.
  unfold nameToFlags, open_socket, close_socket.
  repeat first [apply frames_ioctl | step_frames].
Qed.

Lemma total_nameToFlags name : total (nameToFlags host name).
Proof.
  unfold nameToFlags, open_socket, close_socket.
  repeat first [apply total_ioctl | step_total].
Qed.

Lemma frames_newLink ifam : frames (newLink host ifam).
Proof.
  unfold newLink.
  repeat first [apply frames_indexToName | apply frames_nameToMTU
               | apply frames_nameToFlags | step_frames].
Qed.

(** With the whole header there, [newLink] cannot fault, and the record it
    builds carries the index it read. *)
Lemma newLink_full m st :
  (syscall.SizeofIfAddrmsg ≤ length (Data m))%nat →
  ∃ r st',
    newLink host (payload_ptr m) st = (Done r, st') ∧
    ∀ ifi, r = Some ifi → Index ifi = int_of_uint32 (GOARCH host) (msg_index m).
Proof.
  intros Hlen. unfold newLink, bind at 1, lift. rewrite IfAddrmsg_Index_full by done.
  unfold bind.
  destruct (total_indexToName (msg_index m) st) as ([name|e] & s1 & ->);
    [|by eexists _, _].
  destruct (total_nameToMTU name s1) as ([mtu|e] & s2 & ->); [|by eexists _, _].
  destruct (total_nameToFlags name s2) as ([flags|e] & s3 & ->); [|by eexists _, _].
  eexists _, _. split; [done|]. by intros ifi [= <-].
Qed.

Lemma frames_interfaceTable_loop ifindex msgs :
  ∀ im ift, frames (interfaceTable_loop host ifindex msgs im ift).
Proof.
  induction msgs as [|m rest IH]; intros im ift; simpl; [apply frames_ret|].
  repeat first [apply IH | apply frames_newLink | step_frames].
Qed.

Lemma frames_interfaceTable ifindex : frames (interfaceTable host ifindex).
Proof.
  unfold interfaceTable.
  repeat first [apply frames_interfaceTable_loop | step_frames].
Qed.

Lemma frames_interfaceAddrTable ifi : frames (interfaceAddrTable host ifi).
Proof.
  unfold interfaceAddrTable.
  repeat first [apply frames_interfaceTable | step_frames].
Qed.

Lemma frames_androidApiLevel : frames (androidApiLevel host).
Proof.
  intros st. unfold androidApiLevel.
  destruct (decide (customAndroidApiLevel st ≠ -1)); [apply frames_ret|apply frames_request].
Qed.

Lemma frames_Interfaces : frames (Interfaces host).
Proof.
  unfold Interfaces, Interfaces_netlink.
  repeat first [apply frames_androidApiLevel | apply frames_interfaceTable | step_frames].
Qed.

Lemma frames_InterfaceAddrs : frames (InterfaceAddrs host).
Proof.
  unfold InterfaceAddrs, InterfaceAddrs_netlink.
  repeat first [apply frames_androidApiLevel | apply frames_interfaceAddrTable | step_frames].
Qed.

Lemma frames_InterfaceByIndex index : frames (InterfaceByIndex host index).
Proof.
  unfold InterfaceByIndex, InterfaceByIndex_netlink.
  repeat first [apply frames_androidApiLevel | apply frames_interfaceTable | step_frames].
Qed.

Lemma frames_InterfaceByName name : frames (InterfaceByName host name).
Proof.
  unfold InterfaceByName.
  repeat first [apply frames_interfaceTable | step_frames].
Qed.

Lemma frames_InterfaceAddrsByInterface ifi : frames (InterfaceAddrsByInterface host ifi).
Proof.
  unfold InterfaceAddrsByInterface, InterfaceAddrsByInterface_netlink.
  repeat first [apply frames_androidApiLevel | apply frames_interfaceAddrTable | step_frames].
Qed.


End Frames.

(** * Failing queries *)

Section FailingQueries.
Context {W : Type} (host : Host W).



End FailingQueries.



(** * Listing addresses *)

(** The first new-address record met with no interface list and no target
    interface makes [addrTable] dereference the nil target. *)
Lemma addrTable_nil_target {W} (host : Host W) m rest b data :
  is_newaddr m → Data m = b :: data →
  addrTable host [] None (m :: rest) = Fault NilDereference.
Proof.
  intros Hn Hd. unfold addrTable. simpl.
  destruct (decide (NlMsghdr_Type (Header m) = syscall.NLMSG_DONE)) as [Hdone|_].
  { unfold is_newaddr in Hn. rewrite Hn in Hdone. done. }
  rewrite decide_True by done.
  by rewrite IfAddrmsg_at_nonempty by (by rewrite Hd).
Qed.

(** C9 fails on the code. Every query of the kernel fails, so the
    interface list comes back empty; the dump still holds a new-address
    record, and listing all addresses stops on a nil dereference. *)
Theorem InterfaceAddrs_nil_dereference :
  let h := Sample.all_down (Sample.dump Sample.one_link) 30 in
  let st := Sample.started 11 in
  (Interfaces h st).1 = Done (Ok []) ∧
  (InterfaceAddrs h st).1 = Fault NilDereference.
Proof.
  intros h st. split; vm_compute; reflexivity.
Qed.

Section InBounds.
Context {W : Type} (host : Host W).





End InBounds.



(** * The version gate *)

(** C5 fails on the code. The override says "before Android 11": listing
    the interfaces goes to the conventional lookup, but resolving a name
    does not look at the gate and asks netlink. *)
Theorem InterfaceByName_bypasses_version_gate :
  let st := Sample.started 10 in
  (androidApiLevel Sample.two_links st).1 = Done 0 ∧
  trace (Interfaces Sample.two_links st).2 = [CallNetInterfaces] ∧
  (InterfaceByName Sample.two_links "lo" st).1 =
    Done (Ok {| Index := 1; MTU := 65536; Name := "lo"; HardwareAddr := []; Flags := 37 |}) ∧
  trace (InterfaceByName Sample.two_links "lo" st).2 =
    [CallNetlinkRIB syscall.RTM_GETADDR syscall.AF_UNSPEC;
     CallSocket; CallIoctl 3 syscall.SIOCGIFNAME; CallClose 3;
     CallSocket; CallIoctl 3 syscall.SIOCGIFMTU; CallClose 3;
     CallSocket; CallIoctl 3 syscall.SIOCGIFFLAGS; CallClose 3;
     CallSocket; CallIoctl 3 syscall.SIOCGIFNAME; CallClose 3;
     CallSocket; CallIoctl 3 syscall.SIOCGIFMTU; CallClose 3;
     CallSocket; CallIoctl 3 syscall.SIOCGIFFLAGS; CallClose 3].
Proof.
  intros st. split_and!; vm_compute; reflexivity.
Qed.

Lemma after_calls_override {W} (host : Host W) calls (st : state W) :
  customAndroidApiLevel (after_calls host calls st) = customAndroidApiLevel st.
Proof.
  unfold after_calls. revert st. induction calls as [|c calls IH]; intros st; [done|].
  simpl. rewrite IH. destruct c; simpl.
  - apply frames_Interfaces.
  - apply frames_InterfaceAddrs.
  - apply frames_InterfaceByIndex.
  - apply frames_InterfaceByName.
  - apply frames_InterfaceAddrsByInterface.
Qed.

(** X16. [SetAndroidVersion] sorts its argument by one threshold, and what
    it sets holds for every later call of an entry point that looks at the
    gate, whatever calls came in between:
    with 0 the override is the initial "none" again and the level is asked
    of the device; with 11 or more the level is the Android 11 one without
    asking, and the gated entry points take the netlink path; with 1 to 10
    the level is 0 without asking, and they take the conventional path. *)
Lemma SetAndroidVersion_selects_path {W} (host : Host W) (version : N)
    (st0 : state W) (calls : list call) :
  let st := after_calls host calls (SetAndroidVersion version st0).2 in
  (version = 0%N →
   customAndroidApiLevel st = customAndroidApiLevel (initial (world st)) ∧
   androidApiLevel host st =
   request CallDeviceApiLevel (androidDeviceApiLevel host) st) ∧
  ((11 ≤ version)%N →
   androidApiLevel host st = (Done android11ApiLevel, st) ∧
   Interfaces host st = Interfaces_netlink host st ∧
   InterfaceAddrs host st = InterfaceAddrs_netlink host st ∧
   (∀ index, InterfaceByIndex host index st = InterfaceByIndex_netlink host index st) ∧
   (∀ ifi, InterfaceAddrsByInterface host (Some ifi) st =
           InterfaceAddrsByInterface_netlink host ifi st)) ∧
  ((1 ≤ version ≤ 10)%N →
   androidApiLevel host st = (Done 0, st) ∧
   Interfaces host st = request CallNetInterfaces (net_Interfaces host) st ∧
   InterfaceAddrs host st = request CallNetInterfaceAddrs (net_InterfaceAddrs host) st ∧
   (∀ index, InterfaceByIndex host index st =
             request (CallNetInterfaceByIndex index) (net_InterfaceByIndex host index) st) ∧
   (∀ ifi, InterfaceAddrsByInterface host (Some ifi) st =
           request (CallAddrs ifi) (Interface_Addrs host ifi) st)).
Proof.
  intros st.
  assert (customAndroidApiLevel st =
          if decide (version = 0%N) then -1
          else if decide (11 ≤ version)%N then android11ApiLevel else 0) as Hc.
  { unfold st. by rewrite after_calls_override. }
  assert (∀ lvl, customAndroidApiLevel st = lvl → lvl ≠ -1 →
                 androidApiLevel host st = (Done lvl, st)) as Hlevel.
  { intros lvl Hl Hne. unfold androidApiLevel. rewrite Hl. by rewrite decide_True. }
  split_and!.
  - intros ->. simpl in Hc. split; [done|].
    unfold androidApiLevel. rewrite Hc. by rewrite decide_False by (intros H; by apply H).
  - intros Hv. rewrite decide_False, decide_True in Hc by lia.
    pose proof (Hlevel _ Hc ltac:(done)) as Hl.
    unfold Interfaces, InterfaceAddrs, InterfaceByIndex, InterfaceAddrsByInterface, bind.
    rewrite Hl. by rewrite decide_False by done.
  - intros Hv. rewrite !decide_False in Hc by lia.
    pose proof (Hlevel _ Hc ltac:(done)) as Hl.
    unfold Interfaces, InterfaceAddrs, InterfaceByIndex, InterfaceAddrsByInterface, bind.
    rewrite Hl. by rewrite decide_True by done.
Qed.

Lemma SetAndroidVersion_selects_path_witness :
  let h := Sample.two_links in
  let later v := after_calls h [DoInterfaces; DoInterfaceByName "lo"]
                   (SetAndroidVersion v (Sample.started 11)).2 in
  (androidApiLevel h (later 0%N)).1 = Done 30 ∧
  CallDeviceApiLevel ∈ trace (androidApiLevel h (later 0%N)).2 ∧
  Interfaces h (later 12%N) = Interfaces_netlink h (later 12%N) ∧
  Interfaces h (later 7%N) = request CallNetInterfaces (net_Interfaces h) (later 7%N).
Proof.
  intros h later.
  pose proof (SetAndroidVersion_selects_path h 0 (Sample.started 11)
                [DoInterfaces; DoInterfaceByName "lo"]) as (H0 & _ & _).
  pose proof (SetAndroidVersion_selects_path h 12 (Sample.started 11)
                [DoInterfaces; DoInterfaceByName "lo"]) as (_ & H12 & _).
  pose proof (SetAndroidVersion_selects_path h 7 (Sample.started 11)
                [DoInterfaces; DoInterfaceByName "lo"]) as (_ & _ & H7).
  destruct (H0 eq_refl) as [_ E0].
  destruct (H12 ltac:(lia)) as (_ & E12 & _).
  destruct (H7 ltac:(lia)) as (_ & E7 & _).
  split_and!.
  - unfold later. rewrite E0. vm_compute. reflexivity.
  - unfold later. rewrite E0. vm_compute. apply list_elem_of_In. simpl. tauto.
  - exact E12.
  - exact E7.
Defined.

(** C8 fails on the code for one entry point. Whatever version has been
    set, 1 to 10 included, resolving a non-empty name starts with the
    netlink request: [InterfaceByName] does not look at the override. *)
Theorem InterfaceByName_ignores_override {W} (host : Host W) (version : N)
    (name : string) (st0 : state W) :
  name ≠ "" →
  ∃ evs,
    trace (InterfaceByName host name (SetAndroidVersion version st0).2).2 =
    trace st0 ++ CallNetlinkRIB syscall.RTM_GETADDR syscall.AF_UNSPEC :: evs.
Proof.
  intros Hname. set (st := (SetAndroidVersion version st0).2).
  assert (trace st = trace st0) as <- by done.
  unfold InterfaceByName. rewrite decide_False by done.
  unfold bind at 1, interfaceTable, bind at 1, request.
  destruct (NetlinkRIB host _ _ (world st)) as [[tab|e] w1]; [|by exists []].
  destruct (ParseNetlinkMessage host tab) as [msgs|e]; [|by exists []].
  unfold bind.
  set (st1 := {| world := w1; customAndroidApiLevel := _; trace := _ |}).
  destruct (frames_interfaceTable_loop host 0 msgs ∅ [] st1) as (_ & evs & Ht).
  destruct (interfaceTable_loop host 0 msgs ∅ [] st1) as [[ift|f] st2]; simpl in Ht.
  - exists evs. simpl. destruct (find _ ift); simpl; by rewrite Ht, <- app_assoc.
  - exists evs. simpl. by rewrite Ht, <- app_assoc.
Qed.

Lemma InterfaceByName_ignores_override_witness :
  (androidApiLevel Sample.two_links (Sample.started 5)).1 = Done 0 ∧
  trace (InterfaceAddrs Sample.two_links (Sample.started 5)).2 = [CallNetInterfaceAddrs] ∧
  head (trace (InterfaceByName Sample.two_links "wlan0" (Sample.started 5)).2) =
    Some (CallNetlinkRIB syscall.RTM_GETADDR syscall.AF_UNSPEC).
Proof.
  split_and!; [vm_compute; reflexivity..|].
  destruct (InterfaceByName_ignores_override Sample.two_links 5 "wlan0" (initial tt))
    as [evs Hevs]; [discriminate|].
  unfold Sample.started. rewrite Hevs. reflexivity.
Defined.

(** * Further properties of the code *)

(** ** The per-interface queries *)

Section QueryTraces.
Context {W : Type} (host : Host W).

Lemma indexToName_trace index (st : state W) :
  trace (indexToName host index st).2 =
  trace st ++ query_events (socket_answer host (world st)) syscall.SIOCGIFNAME.
Proof.
  unfold indexToName, socket_answer, bind, open_socket, request.
  destruct (Socket host _ _ _ (world st)) as [[fd|e] w]; [|done].
  unfold ioctl, bind, request. simpl.
  destruct (Syscall_IOCTL host _ _ _ w) as [[e1 out] w2]. simpl.
  destruct (decide (e1 ≠ 0)); simpl; by rewrite <- !app_assoc.
Qed.

Lemma nameToMTU_trace name (st : state W) :
  (String.length name < syscall.IFNAMSIZ)%nat →
  trace (nameToMTU host name st).2 =
  trace st ++ query_events (socket_answer host (world st)) syscall.SIOCGIFMTU.
Proof.
  intros Hlen. unfold nameToMTU. rewrite decide_False by lia.
  unfold socket_answer, bind, open_socket, request.
  destruct (Socket host _ _ _ (world st)) as [[fd|e] w]; [|done].
  unfold ioctl, bind, request. simpl.
  destruct (Syscall_IOCTL host _ _ _ w) as [[e1 out] w2]. simpl.
  destruct (decide (e1 ≠ 0)); simpl; by rewrite <- !app_assoc.
Qed.

Lemma nameToFlags_trace name (st : state W) :
  (String.length name < syscall.IFNAMSIZ)%nat →
  trace (nameToFlags host name st).2 =
  trace st ++ query_events (socket_answer host (world st)) syscall.SIOCGIFFLAGS.
Proof.
  intros Hlen. unfold nameToFlags. rewrite decide_False by lia.
  unfold socket_answer, bind, open_socket, request.
  destruct (Socket host _ _ _ (world st)) as [[fd|e] w]; [|done].
  unfold ioctl, bind, request. simpl.
  destruct (Syscall_IOCTL host _ _ _ w) as [[e1 out] w2]. simpl.
  destruct (decide (e1 ≠ 0)); simpl; by rewrite <- !app_assoc.
Qed.

Lemma query_events_sockets sock req : sockets_opened (query_events sock req) = 1%nat.
Proof. by destruct sock. Qed.

Lemma sockets_opened_app evs1 evs2 :
  sockets_opened (evs1 ++ evs2) = (sockets_opened evs1 + sockets_opened evs2)%nat.
Proof. unfold sockets_opened. by rewrite filter_app, length_app. Qed.

(** [newLink] asks for at most three sockets, and a record it delivers
    carries the index it was asked for. *)
Lemma newLink_requests ifam (st : state W) :
  ∃ evs,
    trace (newLink host ifam st).2 = trace st ++ evs ∧
    (sockets_opened evs ≤ 3)%nat ∧
    ∀ ifi index,
      (newLink host ifam st).1 = Done (Some ifi) →
      IfAddrmsg_Index ifam = Done index →
      Index ifi = int_of_uint32 (GOARCH host) index.
Proof.
  destruct (newLink host ifam st) as [r s'] eqn:E. simpl.
  unfold newLink, bind, lift, ret in E.
  destruct (IfAddrmsg_Index ifam) as [index|f].
  2: { injection E as <- <-. exists []. rewrite app_nil_r.
       split_and!; [done|vm_compute; lia|done]. }
  pose proof (indexToName_trace index st) as H1.
  destruct (indexToName host index st) as [[[name|e]|f] s1]; simpl in H1;
    cbv beta iota in E.
  2,3: injection E as <- <-; eexists; split_and!;
    [exact H1|rewrite query_events_sockets; lia|done].
  destruct (decide (syscall.IFNAMSIZ ≤ String.length name)%nat) as [Hlong|Hshort].
  { unfold nameToMTU in E. rewrite decide_True in E by done.
    unfold ret in E. injection E as <- <-.
    eexists; split_and!; [exact H1|rewrite query_events_sockets; lia|done]. }
  pose proof (nameToMTU_trace name s1 ltac:(lia)) as H2.
  destruct (nameToMTU host name s1) as [[[mtu|e]|f] s2]; simpl in H2;
    cbv beta iota in E.
  2,3: injection E as <- <-; eexists; split_and!;
    [rewrite H2, H1, <- app_assoc; reflexivity
    |rewrite sockets_opened_app, !query_events_sockets; lia|done].
  pose proof (nameToFlags_trace name s2 ltac:(lia)) as H3.
  destruct (nameToFlags host name s2) as [[[flags|e]|f] s3]; simpl in H3;
    cbv beta iota in E.
  all: injection E as <- <-; eexists; split_and!;
    [rewrite H3, H2, H1, <- !app_assoc; reflexivity
    |rewrite !sockets_opened_app, !query_events_sockets; lia|].
  - intros ifi index' [= <-] [= <-]. done.
  - done.
  - done.
Qed.

End QueryTraces.

(** X1. A query (for the MTU and the flags: of a name shorter than the
    name buffer) makes no request but its own socket, one ioctl and the
    release of the socket: a socket that was opened is closed before the
    query returns, also when the ioctl fails, and a failed socket call is
    the only request made. *)
Theorem queries_release_their_socket {W} (host : Host W) (st : state W) :
  (∀ index,
     trace (indexToName host index st).2 =
     trace st ++ query_events (socket_answer host (world st)) syscall.SIOCGIFNAME) ∧
  (∀ name, (String.length name < syscall.IFNAMSIZ)%nat →
     trace (nameToMTU host name st).2 =
     trace st ++ query_events (socket_answer host (world st)) syscall.SIOCGIFMTU) ∧
  (∀ name, (String.length name < syscall.IFNAMSIZ)%nat →
     trace (nameToFlags host name st).2 =
     trace st ++ query_events (socket_answer host (world st)) syscall.SIOCGIFFLAGS).
Proof.
  split_and!.
  - intros. apply indexToName_trace.
  - intros. by apply nameToMTU_trace.
  - intros. by apply nameToFlags_trace.
Qed.

Lemma queries_release_their_socket_witness :
  trace (nameToMTU (Sample.all_down [] 30) "wlan0" (initial tt)).2 =
  [CallSocket; CallIoctl 3 syscall.SIOCGIFMTU; CallClose 3].
Proof.
  destruct (queries_release_their_socket (Sample.all_down [] 30) (initial tt))
    as (_ & Hmtu & _).
  rewrite (Hmtu "wlan0"); [reflexivity|].
  vm_compute. lia.
Defined.

(** X2. A name that fills the sixteen bytes of the name buffer is refused
    by the MTU and the flags query with EINVAL before anything is asked of
    the host, and [newLink] then drops the interface: after the name query
    no further request is made. *)
Theorem long_name_drops_interface {W} (host : Host W) (name : string) :
  (syscall.IFNAMSIZ ≤ String.length name)%nat →
  (∀ st, nameToMTU host name st = (Done (Err EINVAL), st)) ∧
  (∀ st, nameToFlags host name st = (Done (Err EINVAL), st)) ∧
  (∀ ifam index st s1,
     IfAddrmsg_Index ifam = Done index →
     indexToName host index st = (Done (Ok name), s1) →
     newLink host ifam st = (Done None, s1)).
Proof.
  intros Hlen. split_and!.
  - intros st. unfold nameToMTU. by rewrite decide_True.
  - intros st. unfold nameToFlags. by rewrite decide_True.
  - intros ifam index st s1 Hidx Hname.
    unfold newLink, bind at 1, lift. rewrite Hidx.
    unfold bind at 1. rewrite Hname.
    unfold bind, nameToMTU. by rewrite decide_True.
Qed.

Lemma long_name_drops_interface_witness :
  (indexToName long_names 2 (initial tt)).1 = Done (Ok "a_sixteen_b_name") ∧
  (newLink long_names (Sample.ptr (Sample.ifaddrmsg syscall.AF_INET 24 2 [])) (initial tt)).1 = Done None ∧
  trace (newLink long_names (Sample.ptr (Sample.ifaddrmsg syscall.AF_INET 24 2 [])) (initial tt)).2 =
    [CallSocket; CallIoctl 3 syscall.SIOCGIFNAME; CallClose 3].
Proof.
  assert (syscall.IFNAMSIZ ≤ String.length "a_sixteen_b_name")%nat as Hlen
    by (vm_compute; lia).
  destruct (long_name_drops_interface long_names "a_sixteen_b_name" Hlen) as (_ & _ & Hnew).
  assert (indexToName long_names 2 (initial tt) =
          (Done (Ok "a_sixteen_b_name"),
           {| world := tt; customAndroidApiLevel := -1;
              trace := [CallSocket; CallIoctl 3 syscall.SIOCGIFNAME; CallClose 3] |})) as Hname
    by (vm_compute; reflexivity).
  rewrite (Hnew (Sample.ptr (Sample.ifaddrmsg syscall.AF_INET 24 2 [])) 2 (initial tt) _ eq_refl Hname).
  rewrite Hname. by split_and!.
Defined.

(** ** The flag translation *)

(** X3. [linkFlags] is an exact translation of six raw bits: each of the
    net package's flags Up, Running, Broadcast, Loopback, PointToPoint and
    Multicast is set exactly when its raw bit is, the result holds no
    other bit, and raw bits outside the six do not change it. *)
Theorem linkFlags_translates_six_bits (rawFlags : Z) :
  has_flag (linkFlags rawFlags) net.FlagUp = has_flag rawFlags syscall.IFF_UP ∧
  has_flag (linkFlags rawFlags) net.FlagRunning = has_flag rawFlags syscall.IFF_RUNNING ∧
  has_flag (linkFlags rawFlags) net.FlagBroadcast = has_flag rawFlags syscall.IFF_BROADCAST ∧
  has_flag (linkFlags rawFlags) net.FlagLoopback = has_flag rawFlags syscall.IFF_LOOPBACK ∧
  has_flag (linkFlags rawFlags) net.FlagPointToPoint =
    has_flag rawFlags syscall.IFF_POINTOPOINT ∧
  has_flag (linkFlags rawFlags) net.FlagMulticast = has_flag rawFlags syscall.IFF_MULTICAST ∧
  0 ≤ linkFlags rawFlags < 64 ∧
  linkFlags (Z.land rawFlags known_raw_flags) = linkFlags rawFlags.
Proof.
  assert (linkFlags (Z.land rawFlags known_raw_flags) = linkFlags rawFlags) as Hmask.
  { assert (∀ bit, Z.land known_raw_flags bit = bit →
                   Z.land (Z.land rawFlags known_raw_flags) bit = Z.land rawFlags bit) as H.
    { intros bit Hbit. by rewrite <- Z.land_assoc, Hbit. }
    unfold linkFlags. by rewrite !H by reflexivity. }
  rewrite Hmask. clear Hmask.
  unfold linkFlags, has_flag.
  destruct (Z.land rawFlags syscall.IFF_UP =? 0),
           (Z.land rawFlags syscall.IFF_RUNNING =? 0),
           (Z.land rawFlags syscall.IFF_BROADCAST =? 0),
           (Z.land rawFlags syscall.IFF_LOOPBACK =? 0),
           (Z.land rawFlags syscall.IFF_POINTOPOINT =? 0),
           (Z.land rawFlags syscall.IFF_MULTICAST =? 0);
    vm_compute; repeat split; congruence.
Qed.

(** ** The interface table for one interface *)

Section SingleTarget.
Context {W : Type} (host : Host W).

Lemma interfaceTable_loop_target ifindex msgs :
  ifindex ≠ 0 →
  Forall full_header msgs →
  ∀ (im : gset Z) st,
    (∀ i, i ∈ im → int_of_uint32 (GOARCH host) i ≠ ifindex) →
    interfaceTable_loop host ifindex msgs im [] st =
    match target_record (GOARCH host) ifindex msgs with
    | None => (Done [], st)
    | Some m =>
        (ifi <- newLink host (payload_ptr m) ;;
         ret (match ifi with Some ifi => [ifi] | None => [] end)) st
    end.
Proof.
  intros Hnz Hfull. induction Hfull as [|m rest Hm _ IH]; intros im st Him; [done|].
  simpl. destruct (decide (is_done m)) as [Hd|Hd].
  { by rewrite decide_True. }
  rewrite decide_False by done.
  destruct (decide (NlMsghdr_Type (Header m) = syscall.RTM_NEWADDR)) as [Hn|Hn].
  - specialize (Hm Hn).
    unfold bind at 1, lift at 1. rewrite IfAddrmsg_at_full by done.
    unfold bind at 1, lift at 1. rewrite IfAddrmsg_Index_full by done.
    destruct (decide (targets (GOARCH host) ifindex m)) as [[_ Ht]|Ht].
    + rewrite decide_False; last first.
      { intros Hin. by apply (Him _ Hin). }
      rewrite decide_True by (by right).
      unfold bind. destruct (newLink host (payload_ptr m) st) as [[[ifi|]|f] st']; [| |done].
      all: by rewrite decide_True.
    + assert (ifindex ≠ int_of_uint32 (GOARCH host) (msg_index m)) as Hne.
      { intros Heq. apply Ht. by split. }
      destruct (decide (msg_index m ∈ im)); [by apply IH|].
      rewrite decide_False by (intros [?|?]; done).
      apply IH. intros i Hi. apply elem_of_union in Hi as [Hi|Hi]; [|by apply Him].
      apply elem_of_singleton in Hi as ->. done.
  - rewrite decide_False; last first.
    { intros [Hn' _]. done. }
    by apply IH.
Qed.

End SingleTarget.

(** X4. With a nonzero target the table is built from one record only:
    the first new-address record of that interface ahead of any end-of-dump
    record. Nothing before it triggers a query and nothing after it is
    looked at; the table is that interface's record, or empty when the
    stream has no such record or the queries for it fail. *)
Theorem interfaceTable_single_target {W} (host : Host W) (ifindex : Z)
    (msgs : list NetlinkMessage) (st : state W) :
  ifindex ≠ 0 →
  Forall full_header msgs →
  interfaceTable_loop host ifindex msgs ∅ [] st =
  match target_record (GOARCH host) ifindex msgs with
  | None => (Done [], st)
  | Some m =>
      (ifi <- newLink host (payload_ptr m) ;;
       ret (match ifi with Some ifi => [ifi] | None => [] end)) st
  end.
Proof.
  intros Hnz Hfull. apply interfaceTable_loop_target; [done..|].
  intros i Hi. by apply not_elem_of_empty in Hi.
Qed.

Lemma interfaceTable_single_target_witness :
  let msgs := [Sample.newaddr syscall.AF_INET 8 1 [];
               Sample.newaddr syscall.AF_INET 24 2 [];
               Sample.newaddr syscall.AF_INET 24 3 []] in
  interfaceTable_loop Sample.two_links 2 msgs ∅ [] (initial tt) =
  (Done [{| Index := 2; MTU := 1500; Name := "wlan0"; HardwareAddr := []; Flags := 51 |}],
   {| world := tt; customAndroidApiLevel := -1;
      trace := [CallSocket; CallIoctl 3 syscall.SIOCGIFNAME; CallClose 3;
                CallSocket; CallIoctl 3 syscall.SIOCGIFMTU; CallClose 3;
                CallSocket; CallIoctl 3 syscall.SIOCGIFFLAGS; CallClose 3] |}).
Proof.
  intros msgs.
  rewrite (interfaceTable_single_target Sample.two_links 2 msgs (initial tt)).
  - vm_compute. reflexivity.
  - discriminate.
  - repeat constructor; intros ?; vm_compute; lia.
Defined.

Lemma target_record_Some a ifindex msgs m :
  target_record a ifindex msgs = Some m → m ∈ msgs ∧ targets a ifindex m.
Proof.
  induction msgs as [|x rest IH]; simpl; [done|].
  destruct (decide (is_done x)); [done|].
  destruct (decide (targets a ifindex x)) as [Ht|Ht].
  - intros [= <-]. split; [left|done].
  - intros H. destruct (IH H). split; [by right|done].
Qed.

(** The netlink branch of [InterfaceByIndex], once the dump is there. *)
Lemma InterfaceByIndex_run {W} (host : Host W) (index : Z)
    (st : state W) (tab : list byte) (w1 : W) (msgs : list NetlinkMessage) :
  customAndroidApiLevel st = android11ApiLevel →
  0 < index →
  NetlinkRIB host syscall.RTM_GETADDR syscall.AF_UNSPEC (world st) = (Ok tab, w1) →
  ParseNetlinkMessage host tab = Ok msgs →
  InterfaceByIndex host index st =
  match interfaceTable_loop host index msgs ∅ []
          {| world := w1;
             customAndroidApiLevel := customAndroidApiLevel st;
             trace := trace st ++ [CallNetlinkRIB syscall.RTM_GETADDR syscall.AF_UNSPEC] |}
  with
  | (Done ift, s) =>
      (Done match interfaceByIndex ift index with
            | Ok ifi => Ok ifi
            | Err err => Err (route_error err)
            end, s)
  | (Fault f, s) => (Fault f, s)
  end.
Proof.
  intros Hlvl Hpos Hrib Hparse.
  assert (androidApiLevel host st = (Done android11ApiLevel, st)) as Hgate.
  { unfold androidApiLevel. rewrite decide_True by (by rewrite Hlvl).
    unfold ret. by rewrite Hlvl. }
  unfold InterfaceByIndex, bind at 1. rewrite Hgate.
  rewrite decide_False by (unfold android11ApiLevel; lia).
  unfold InterfaceByIndex_netlink. rewrite decide_False by lia.
  unfold interfaceTable, bind, request, ret. rewrite Hrib, Hparse.
  destruct (interfaceTable_loop host index msgs ∅ [] _) as [[ift|f] s]; [|done].
  by destruct (interfaceByIndex ift index).
Qed.

(** X5. Resolving a positive index over netlink asks the kernel about one
    interface at most, however long the dump is: after the netlink request
    no more than three sockets are opened. What comes back is a record
    carrying the index asked for, or the "no such network interface"
    error. *)
Theorem InterfaceByIndex_asks_for_one_interface {W} (host : Host W) (index : Z)
    (st : state W) (tab : list byte) (w1 : W) (msgs : list NetlinkMessage) :
  customAndroidApiLevel st = android11ApiLevel →
  0 < index →
  NetlinkRIB host syscall.RTM_GETADDR syscall.AF_UNSPEC (world st) = (Ok tab, w1) →
  ParseNetlinkMessage host tab = Ok msgs →
  Forall full_header msgs →
  ∃ evs,
    trace (InterfaceByIndex host index st).2 =
      trace st ++ CallNetlinkRIB syscall.RTM_GETADDR syscall.AF_UNSPEC :: evs ∧
    (sockets_opened evs ≤ 3)%nat ∧
    ((∃ ifi, (InterfaceByIndex host index st).1 = Done (Ok ifi) ∧ Index ifi = index) ∨
     (InterfaceByIndex host index st).1 =
       Done (Err (OpError "route" "ip+net" errNoSuchInterface))).
Proof.
  intros Hlvl Hpos Hrib Hparse Hfull.
  rewrite (InterfaceByIndex_run host index st tab w1 msgs) by done.
  set (st1 := {| world := w1; customAndroidApiLevel := _; trace := _ |}).
  rewrite interfaceTable_loop_target; [|lia|done|]; last first.
  { intros i Hi. by apply not_elem_of_empty in Hi. }
  destruct (target_record (GOARCH host) index msgs) as [m|] eqn:Em.
  - apply target_record_Some in Em as [Hin [Hn Ht]].
    rewrite Forall_forall in Hfull. pose proof (Hfull m Hin Hn) as Hlen.
    destruct (newLink_requests host (payload_ptr m) st1) as (evs & Htr & Hsock & Hidx).
    destruct (newLink_full host m st1 Hlen) as (r & s2 & E & _).
    unfold bind. rewrite E in *. simpl in Htr. exists evs.
    assert (trace s2 = trace st ++ CallNetlinkRIB syscall.RTM_GETADDR syscall.AF_UNSPEC :: evs)
      as Htr' by (rewrite Htr; unfold st1; simpl; by rewrite <- app_assoc).
    destruct r as [ifi|]; simpl.
    + assert (Index ifi = index) as Hi.
      { rewrite (Hidx ifi (msg_index m)); [done..|]. by apply IfAddrmsg_Index_full. }
      unfold interfaceByIndex. simpl. rewrite bool_decide_eq_true_2 by done.
      split_and!; [exact Htr'|exact Hsock|]. left. exists ifi. by split.
    + split_and!; [exact Htr'|exact Hsock|by right].
  - exists []. simpl. split_and!; [done|vm_compute; lia|by right].
Qed.

Lemma InterfaceByIndex_asks_for_one_interface_witness :
  ∃ evs,
    trace (InterfaceByIndex Sample.two_links 2 (Sample.started 11)).2 =
      CallNetlinkRIB syscall.RTM_GETADDR syscall.AF_UNSPEC :: evs ∧
    (sockets_opened evs ≤ 3)%nat.
Proof.
  destruct (InterfaceByIndex_asks_for_one_interface Sample.two_links 2 (Sample.started 11)
              (Sample.dump two_links_records) tt two_links_records)
    as (evs & Htr & Hsock & _).
  - reflexivity.
  - lia.
  - reflexivity.
  - vm_compute. reflexivity.
  - repeat constructor; intros ?; vm_compute; (lia || discriminate).
  - exists evs. split; [exact Htr|exact Hsock].
Defined.

(** ** Looking a name up *)

(** X6. Resolving a non-empty name is a look-up in the table of all
    interfaces: when the table holds a record of that name the call returns
    one, and it is in the table and carries the name; when it holds none
    the call fails with "no such network interface". Either way the state
    is the one the table was built in. *)
Theorem InterfaceByName_lookup {W} (host : Host W) (name : string)
    (st s : state W) (ift : list Interface) :
  name ≠ "" →
  interfaceTable host 0 st = (Done (Ok ift), s) →
  (name ∈ Name <$> ift →
   ∃ ifi, InterfaceByName host name st = (Done (Ok ifi), s) ∧
          ifi ∈ ift ∧ Name ifi = name) ∧
  (name ∉ Name <$> ift →
   InterfaceByName host name st =
   (Done (Err (OpError "route" "ip+net" errNoSuchInterface)), s)).
Proof.
  intros Hname Htab.
  assert (InterfaceByName host name st =
          (Done match find (fun ifi => bool_decide (name = Name ifi)) ift with
                | Some ifi => Ok ifi
                | None => Err (route_error errNoSuchInterface)
                end, s)) as ->.
  { unfold InterfaceByName. rewrite decide_False by done.
    unfold bind. rewrite Htab. by destruct (find _ ift). }
  split.
  - intros Hin. apply list_elem_of_fmap in Hin as (x & Hx & Hin).
    destruct (find (fun ifi => bool_decide (name = Name ifi)) ift) as [ifi|] eqn:E.
    + apply find_some in E as [HIn E]. apply bool_decide_eq_true in E.
      exists ifi. split_and!; [done|by apply list_elem_of_In|done].
    + exfalso. apply list_elem_of_In in Hin.
      pose proof (find_none _ _ E x Hin) as Hno. simpl in Hno.
      apply bool_decide_eq_false in Hno. done.
  - intros Hnot.
    destruct (find (fun ifi => bool_decide (name = Name ifi)) ift) as [ifi|] eqn:E; [|done].
    exfalso. apply find_some in E as [HIn E]. apply bool_decide_eq_true in E.
    apply Hnot. apply list_elem_of_fmap. exists ifi. split; [done|by apply list_elem_of_In].
Qed.

Lemma InterfaceByName_lookup_witness :
  (InterfaceByName Sample.two_links "wlan0" (initial tt)).1 =
    Done (Ok {| Index := 2; MTU := 1500; Name := "wlan0"; HardwareAddr := []; Flags := 51 |}) ∧
  (InterfaceByName Sample.two_links "eth0" (initial tt)).1 =
    Done (Err (OpError "route" "ip+net" errNoSuchInterface)).
Proof.
  destruct (interfaceTable Sample.two_links 0 (initial tt)) as [r s] eqn:Htab.
  assert (r = Done (Ok [{| Index := 1; MTU := 65536; Name := "lo"; HardwareAddr := [];
                           Flags := 37 |};
                        {| Index := 2; MTU := 1500; Name := "wlan0"; HardwareAddr := [];
                           Flags := 51 |}])) as ->.
  { revert Htab. vm_compute. by intros [= <- _]. }
  destruct (InterfaceByName_lookup Sample.two_links "wlan0" (initial tt) s _
              ltac:(discriminate) Htab) as [Hyes _].
  destruct (InterfaceByName_lookup Sample.two_links "eth0" (initial tt) s _
              ltac:(discriminate) Htab) as [_ Hno].
  split.
  - destruct Hyes as (ifi & -> & Hin & Hn); [compute_done|]. simpl.
    apply elem_of_cons in Hin as [->|Hin]; [discriminate|].
    apply elem_of_cons in Hin as [->|Hin]; [done|]. apply elem_of_nil in Hin. destruct Hin.
  - rewrite Hno; [done|]. compute_done.
Defined.

(** ** The errors of the netlink path *)

Section Errors.
Context {W : Type} (host : Host W).

Lemma interfaceTable_errors ifindex (st : state W) e :
  (interfaceTable host ifindex st).1 = Done (Err e) →
  ∃ stage cause, stage ∈ table_stages ∧ e = SyscallError stage cause.
Proof.
  unfold interfaceTable, bind, request, ret.
  destruct (NetlinkRIB host _ _ (world st)) as [[tab|err] w].
  - destruct (ParseNetlinkMessage host tab) as [msgs|err].
    + destruct (interfaceTable_loop _ _ _ _ _ _) as [[ift|f] s]; done.
    + intros [= <-]. exists "parsenetlinkmessage", err. split; [compute_done|done].
  - intros [= <-]. exists "netlinkrib", err. split; [compute_done|done].
Qed.

Lemma addrTable_loop_errors ift ifi msgs e :
  ∀ ifat,
    addrTable_loop host ift ifi msgs ifat = Done (Err e) →
    ∃ cause, e = SyscallError "parsenetlinkrouteattr" cause.
Proof.
  induction msgs as [|m rest IH]; intros ifat; simpl; [done|].
  destruct (decide (NlMsghdr_Type (Header m) = syscall.NLMSG_DONE)); [done|].
  destruct (decide (NlMsghdr_Type (Header m) = syscall.RTM_NEWADDR)); [|apply IH].
  destruct (IfAddrmsg_at m) as [ifam|]; [simpl|done].
  destruct (if decide (length ift ≠ 0%nat) then _ else _) as [[]|]; simpl; [|apply IH|done].
  destruct (ParseNetlinkRouteAttr host m) as [[attrs|err]|]; simpl; [| |done].
  - destruct (newAddr host ifam attrs) as [ifa|]; [simpl|done]. apply IH.
  - intros [= <-]. by exists err.
Qed.

Lemma interfaceAddrTable_errors ifi (st : state W) e :
  (interfaceAddrTable host ifi st).1 = Done (Err e) →
  ∃ stage cause, stage ∈ address_stages ∧ e = SyscallError stage cause.
Proof.
  unfold interfaceAddrTable, bind at 1, request.
  destruct (NetlinkRIB host _ _ (world st)) as [[tab|err] w].
  2: { intros [= <-]. exists "netlinkrib", err. split; [compute_done|done]. }
  destruct (ParseNetlinkMessage host tab) as [msgs|err].
  2: { intros [= <-]. exists "parsenetlinkmessage", err. split; [compute_done|done]. }
  set (st1 := {| world := w; customAndroidApiLevel := _; trace := _ |}).
  unfold bind.
  assert (∀ ift (s : state W), (lift (W := W) (addrTable host ift ifi msgs) s).1 = Done (Err e) →
                   ∃ stage cause, stage ∈ address_stages ∧ e = SyscallError stage cause) as Haddr.
  { intros ift s H. apply addrTable_loop_errors in H as [cause ->].
    exists "parsenetlinkrouteattr", cause. split; [compute_done|done]. }
  destruct ifi as [ifi|].
  - apply Haddr.
  - pose proof (interfaceTable_errors 0 st1) as Htab.
    destruct (interfaceTable host 0 st1) as [[[ift|err]|f] s]; simpl in *; [exact (Haddr ift s)| |done].
    intros [= <-]. destruct (Htab err eq_refl) as (stage & cause & Hin & ->).
    exists stage, cause. split; [|done].
    unfold table_stages, address_stages in *. rewrite !elem_of_cons in Hin |- *.
    destruct Hin as [->|[->|Hin%elem_of_nil]]; [by left|by right; left|destruct Hin].
Qed.

End Errors.

(** X7. On the netlink path every error an entry point returns is an
    OpError with Op "route" and Net "ip+net", and it tells the stage that
    failed: the netlink request, the parsing of the dump or, for addresses,
    the parsing of an attribute list. Beside these there are only the two
    argument errors and "no such network interface": no other error is
    returned. *)
Theorem netlink_errors_name_their_stage {W} (host : Host W) (st : state W) (e : error) :
  ((Interfaces_netlink host st).1 = Done (Err e) → stage_error table_stages e) ∧
  (∀ index,
     (InterfaceByIndex_netlink host index st).1 = Done (Err e) →
     e = route_error errInvalidInterfaceIndex ∨ e = route_error errNoSuchInterface ∨
     stage_error table_stages e) ∧
  (∀ name,
     (InterfaceByName host name st).1 = Done (Err e) →
     e = route_error errInvalidInterfaceName ∨ e = route_error errNoSuchInterface ∨
     stage_error table_stages e) ∧
  ((InterfaceAddrs_netlink host st).1 = Done (Err e) → stage_error address_stages e) ∧
  (∀ ifi,
     (InterfaceAddrsByInterface_netlink host ifi st).1 = Done (Err e) →
     stage_error address_stages e).
Proof.
  assert (∀ stages err,
            (∃ stage cause, stage ∈ stages ∧ err = SyscallError stage cause) →
            stage_error stages (route_error err)) as Hwrap.
  { intros stages err (stage & cause & Hin & ->). by exists stage, cause. }
  split_and!.
  - unfold Interfaces_netlink, bind, ret.
    pose proof (interfaceTable_errors host 0 st) as Htab.
    destruct (interfaceTable host 0 st) as [[[ift|err]|f] s]; simpl in *; [done| |done].
    intros [= <-]. by apply Hwrap, Htab.
  - intros index. unfold InterfaceByIndex_netlink.
    destruct (decide (index ≤ 0)); [intros [= <-]; by left|].
    unfold bind, ret. pose proof (interfaceTable_errors host index st) as Htab.
    destruct (interfaceTable host index st) as [[[ift|err]|f] s]; simpl in *; [| |done].
    + unfold interfaceByIndex. destruct (find _ ift); simpl; [done|].
      intros [= <-]. right. by left.
    + intros [= <-]. right. right. by apply Hwrap, Htab.
  - intros name. unfold InterfaceByName.
    destruct (decide (name = "")); [intros [= <-]; by left|].
    unfold bind, ret. pose proof (interfaceTable_errors host 0 st) as Htab.
    destruct (interfaceTable host 0 st) as [[[ift|err]|f] s]; simpl in *; [| |done].
    + destruct (find _ ift); simpl; [done|]. intros [= <-]. right. by left.
    + intros [= <-]. right. right. by apply Hwrap, Htab.
  - unfold InterfaceAddrs_netlink, bind, ret.
    pose proof (interfaceAddrTable_errors host None st) as Htab.
    destruct (interfaceAddrTable host None st) as [[[ifat|err]|f] s]; simpl in *; [done| |done].
    intros [= <-]. by apply Hwrap, Htab.
  - intros ifi. unfold InterfaceAddrsByInterface_netlink, bind, ret.
    pose proof (interfaceAddrTable_errors host (Some ifi) st) as Htab.
    destruct (interfaceAddrTable host (Some ifi) st) as [[[ifat|err]|f] s]; simpl in *;
      [done| |done].
    intros [= <-]. by apply Hwrap, Htab.
Qed.

Lemma netlink_errors_name_their_stage_witness :
  (Interfaces_netlink bad_dump (initial tt)).1 =
    Done (Err (OpError "route" "ip+net" (SyscallError "parsenetlinkmessage" EINVAL))) ∧
  stage_error table_stages
    (OpError "route" "ip+net" (SyscallError "parsenetlinkmessage" EINVAL)).
Proof.
  assert ((Interfaces_netlink bad_dump (initial tt)).1 =
          Done (Err (OpError "route" "ip+net" (SyscallError "parsenetlinkmessage" EINVAL))))
    as Hrun by (vm_compute; reflexivity).
  split; [exact Hrun|].
  by apply (proj1 (netlink_errors_name_their_stage bad_dump (initial tt) _)).
Defined.

(** ** The address table *)

Section AddrTableMore.
Context {W : Type} (host : Host W).

(** The list built so far is only ever extended. *)
Lemma addrTable_loop_acc ift ifi msgs :
  ∀ ifat,
    addrTable_loop host ift ifi msgs ifat =
    match addrTable_loop host ift ifi msgs [] with
    | Done (Ok more) => Done (Ok (ifat ++ more))
    | r => r
    end.
Proof.
  induction msgs as [|m rest IH]; intros ifat; simpl.
  - by rewrite app_nil_r.
  - destruct (decide (NlMsghdr_Type (Header m) = syscall.NLMSG_DONE));
      [by rewrite app_nil_r|].
    destruct (decide (NlMsghdr_Type (Header m) = syscall.RTM_NEWADDR)); [|apply IH].
    destruct (IfAddrmsg_at m) as [ifam|]; [simpl|done].
    destruct (if decide (length ift ≠ 0%nat) then _ else _) as [[]|]; simpl; [|apply IH|done].
    destruct (ParseNetlinkRouteAttr host m) as [[attrs|err]|]; simpl; [|done..].
    destruct (newAddr host ifam attrs) as [[ifa|]|]; simpl; [|apply IH|done].
    rewrite (IH (ifat ++ [ifa])), (IH [ifa]).
    destruct (addrTable_loop host ift ifi rest []) as [[more|]|]; [|done..].
    by rewrite <- app_assoc.
Qed.

Lemma addrTable_loop_app ift ifi l1 l2 :
  Forall (fun m => ¬ is_done m) l1 →
  ∀ ifat a1,
    addrTable_loop host ift ifi l1 ifat = Done (Ok a1) →
    addrTable_loop host ift ifi (l1 ++ l2) ifat = addrTable_loop host ift ifi l2 a1.
Proof.
  induction 1 as [|m rest Hm _ IH]; intros ifat a1; simpl.
  - by intros [= <-].
  - destruct (decide (NlMsghdr_Type (Header m) = syscall.NLMSG_DONE)) as [Hd|_];
      [destruct (Hm Hd)|].
    destruct (decide (NlMsghdr_Type (Header m) = syscall.RTM_NEWADDR)); [|apply IH].
    destruct (IfAddrmsg_at m) as [ifam|]; [simpl|done].
    destruct (if decide (length ift ≠ 0%nat) then _ else _) as [[]|]; simpl; [|apply IH|done].
    destruct (ParseNetlinkRouteAttr host m) as [[attrs|err]|]; simpl; [|done..].
    destruct (newAddr host ifam attrs) as [ifa|]; [simpl|done]. apply IH.
Qed.

Lemma addrTable_loop_length ift ifi msgs :
  ∀ ifat r,
    addrTable_loop host ift ifi msgs ifat = Done (Ok r) →
    (length r ≤ length ifat + length (filter is_newaddr msgs))%nat.
Proof.
  induction msgs as [|m rest IH]; intros ifat r; simpl.
  - intros [= <-]. lia.
  - rewrite filter_cons. unfold is_newaddr at 1.
    destruct (decide (NlMsghdr_Type (Header m) = syscall.NLMSG_DONE)).
    { intros [= <-]. lia. }
    destruct (decide (NlMsghdr_Type (Header m) = syscall.RTM_NEWADDR)) as [Hn|Hn].
    2: { apply IH. }
    simpl length.
    destruct (IfAddrmsg_at m) as [ifam|]; [simpl|done].
    destruct (if decide (length ift ≠ 0%nat) then _ else _) as [[]|]; simpl; [| |done].
    2: { intros H. apply IH in H. lia. }
    destruct (ParseNetlinkRouteAttr host m) as [[attrs|err]|]; simpl; [|done..].
    destruct (newAddr host ifam attrs) as [[ifa|]|]; simpl; [| |done].
    all: intros H; apply IH in H; rewrite ?length_app in H; simpl in H; lia.
Qed.

End AddrTableMore.

(** X8. Addresses are collected record by record, in stream order and
    without looking back: when a stretch of records without end-of-dump
    record gives the addresses [a1], the table of that stretch followed by
    more records is [a1] followed by the table of the rest, and a failure
    in the rest is the failure of the whole. *)
Theorem addrTable_of_concatenation {W} (host : Host W) (ift : list Interface)
    (ifi : option Interface) (l1 l2 : list NetlinkMessage) (a1 : list Addr) :
  Forall (fun m => ¬ is_done m) l1 →
  addrTable host ift ifi l1 = Done (Ok a1) →
  addrTable host ift ifi (l1 ++ l2) =
  match addrTable host ift ifi l2 with
  | Done (Ok a2) => Done (Ok (a1 ++ a2))
  | r => r
  end.
Proof.
  intros Hnd H1. unfold addrTable in *.
  rewrite (addrTable_loop_app host ift ifi l1 l2 Hnd [] a1 H1).
  apply addrTable_loop_acc.
Qed.

Lemma addrTable_of_concatenation_witness :
  let h := Sample.all_up [] 30 in
  let ifi := {| Index := 2; MTU := 1500; Name := "wlan0"; HardwareAddr := []; Flags := 51 |} in
  let m1 := Sample.newaddr syscall.AF_INET 24 2
              (Sample.rtattr syscall.IFA_ADDRESS [x0a; x00; x00; x05]) in
  let m2 := Sample.newaddr syscall.AF_INET 24 2
              (Sample.rtattr syscall.IFA_ADDRESS [x0a; x00; x00; x06]) in
  addrTable h [] (Some ifi) ([m1] ++ [m2]) =
  Done (Ok [{| IP := Sample.IPv4 x0a x00 x00 x05; Mask := [xff; xff; xff; x00] |};
            {| IP := Sample.IPv4 x0a x00 x00 x06; Mask := [xff; xff; xff; x00] |}]).
Proof.
  intros h ifi m1 m2.
  rewrite (addrTable_of_concatenation h [] (Some ifi) [m1] [m2]
             [{| IP := Sample.IPv4 x0a x00 x00 x05; Mask := [xff; xff; xff; x00] |}]).
  - vm_compute. reflexivity.
  - compute_done.
  - vm_compute. reflexivity.
Defined.

(** X9. A record yields at most one address: the table is never longer
    than the stream has new-address records. *)
Theorem addrTable_at_most_one_per_record {W} (host : Host W) (ift : list Interface)
    (ifi : option Interface) (msgs : list NetlinkMessage) (ifat : list Addr) :
  addrTable host ift ifi msgs = Done (Ok ifat) →
  (length ifat ≤ length (filter is_newaddr msgs))%nat.
Proof.
  intros H. apply addrTable_loop_length in H. simpl in H. lia.
Qed.

Lemma addrTable_at_most_one_per_record_witness :
  let ifi := {| Index := 2; MTU := 1500; Name := "wlan0"; HardwareAddr := []; Flags := 51 |} in
  ∃ ifat,
    addrTable (Sample.all_up [] 30) [] (Some ifi) Sample.one_link = Done (Ok ifat) ∧
    (length ifat ≤ 1)%nat.
Proof.
  intros ifi.
  destruct (addrTable (Sample.all_up [] 30) [] (Some ifi) Sample.one_link)
    as [[ifat|]|] eqn:E; [|vm_compute in E; discriminate..].
  exists ifat. split; [done|].
  pose proof (addrTable_at_most_one_per_record _ _ _ _ _ E) as H.
  vm_compute in H. exact H.
Defined.

Section AddrTableSelection.
Context {W : Type} (host : Host W).

Lemma addrTable_loop_owned ifi msgs :
  Forall full_header msgs →
  ∀ ifat,
    addrTable_loop host [] (Some ifi) msgs ifat =
    addrTable_loop host [] (Some ifi) (filter (owned (GOARCH host) ifi) msgs) ifat.
Proof.
  induction 1 as [|m rest Hm _ IH]; intros ifat; [done|].
  rewrite filter_cons. unfold owned at 1.
  destruct (decide (NlMsghdr_Type (Header m) = syscall.RTM_NEWADDR)) as [Hn|Hn].
  - destruct (decide (is_newaddr m → _)) as [Hown|Hother].
    + cbn [addrTable_loop].
      destruct (decide (NlMsghdr_Type (Header m) = syscall.NLMSG_DONE)); [done|].
      rewrite !decide_True by done.
      destruct (IfAddrmsg_at m) as [ifam|]; [cbn [run_bind]|done].
      rewrite decide_False by (simpl; lia). cbn [run_bind deref_Index].
      destruct (IfAddrmsg_Index ifam); cbn [run_bind]; [|done].
      destruct (bool_decide _); [|apply IH].
      destruct (ParseNetlinkRouteAttr host m) as [[attrs|err]|]; simpl; [|done..].
      destruct (newAddr host ifam attrs) as [ifa|]; [simpl|done]. apply IH.
    + cbn [addrTable_loop]. rewrite decide_False; last first.
      { intros Hd. unfold is_newaddr in Hn. rewrite Hn in Hd. done. }
      rewrite decide_True by done.
      rewrite IfAddrmsg_at_full by (by apply Hm). cbn [run_bind].
      rewrite decide_False by (simpl; lia). cbn [run_bind deref_Index].
      rewrite IfAddrmsg_Index_full by (by apply Hm). cbn [run_bind].
      rewrite bool_decide_eq_false_2; [apply IH|].
      intros Heq. apply Hother. by intros _.
  - rewrite decide_True by (by intros ?).
    simpl. destruct (decide (NlMsghdr_Type (Header m) = syscall.NLMSG_DONE)); [done|].
    rewrite !decide_False by done. apply IH.
Qed.

Lemma addrTable_loop_all_mode ift ift' ifi ifi' msgs :
  ift ≠ [] → ift' ≠ [] →
  ∀ ifat,
    addrTable_loop host ift ifi msgs ifat = addrTable_loop host ift' ifi' msgs ifat.
Proof.
  intros Hne Hne'.
  assert (length ift ≠ 0%nat) by (by destruct ift).
  assert (length ift' ≠ 0%nat) by (by destruct ift').
  induction msgs as [|m rest IH]; intros ifat; simpl; [done|].
  destruct (decide (NlMsghdr_Type (Header m) = syscall.NLMSG_DONE)); [done|].
  destruct (decide (NlMsghdr_Type (Header m) = syscall.RTM_NEWADDR)); [|apply IH].
  destruct (IfAddrmsg_at m) as [ifam|]; [simpl|done].
  rewrite !decide_True by done. simpl.
  destruct (ParseNetlinkRouteAttr host m) as [[attrs|err]|]; simpl; [|done..].
  destruct (newAddr host ifam attrs) as [ifa|]; [simpl|done]. apply IH.
Qed.

End AddrTableSelection.

(** X10. Listing the addresses of one interface looks at the records of
    that interface only: the new-address records of other interfaces can be
    struck from the stream without changing the outcome. Their attribute
    lists are not even parsed, so a malformed one among them does no
    harm. *)
Theorem addrTable_other_interfaces_ignored {W} (host : Host W) (ifi : Interface)
    (msgs : list NetlinkMessage) :
  Forall full_header msgs →
  addrTable host [] (Some ifi) msgs =
  addrTable host [] (Some ifi) (filter (owned (GOARCH host) ifi) msgs).
Proof.
  intros Hfull. by apply addrTable_loop_owned.
Qed.

Lemma addrTable_other_interfaces_ignored_witness :
  let h := Sample.all_up [] 30 in
  let ifi := {| Index := 2; MTU := 1500; Name := "wlan0"; HardwareAddr := []; Flags := 51 |} in
  let other := Sample.newaddr syscall.AF_INET 8 1 [x01; x00; x00; x00] in
  ParseNetlinkRouteAttr h other = Done (Err EINVAL) ∧
  addrTable h [] (Some ifi) (other :: Sample.one_link) =
  Done (Ok [{| IP := Sample.IPv4 x0a x00 x00 x05; Mask := [xff; xff; xff; x00] |}]).
Proof.
  intros h ifi other. split; [vm_compute; reflexivity|].
  rewrite (addrTable_other_interfaces_ignored h ifi (other :: Sample.one_link)).
  - vm_compute. reflexivity.
  - repeat constructor; intros ?; vm_compute; (lia || discriminate).
Defined.

(** X11. When addresses are listed for all interfaces, the interface list
    is only asked whether it is empty: with any two non-empty lists, and
    whatever the target argument, the outcome is the same. What the
    list holds is never compared with a record. *)
Theorem addrTable_all_interfaces_mode {W} (host : Host W) (ift ift' : list Interface)
    (ifi ifi' : option Interface) (msgs : list NetlinkMessage) :
  ift ≠ [] → ift' ≠ [] →
  addrTable host ift ifi msgs = addrTable host ift' ifi' msgs.
Proof.
  intros Hne Hne'. by apply addrTable_loop_all_mode.
Qed.

Lemma addrTable_all_interfaces_mode_witness :
  let h := Sample.all_up [] 30 in
  let lo := {| Index := 1; MTU := 65536; Name := "lo"; HardwareAddr := []; Flags := 37 |} in
  addrTable h [lo] None Sample.one_link =
  Done (Ok [{| IP := Sample.IPv4 x0a x00 x00 x05; Mask := [xff; xff; xff; x00] |}]).
Proof.
  intros h lo.
  rewrite (addrTable_all_interfaces_mode h [lo] [lo; lo] None (Some lo) Sample.one_link);
    [|discriminate..].
  vm_compute. reflexivity.
Defined.

(** ** Invariants of the interface table *)

Lemma linkFlags_range rawFlags : 0 ≤ linkFlags rawFlags < 64.
Proof.
  unfold linkFlags.
  destruct (Z.land rawFlags syscall.IFF_UP =? 0),
           (Z.land rawFlags syscall.IFF_RUNNING =? 0),
           (Z.land rawFlags syscall.IFF_BROADCAST =? 0),
           (Z.land rawFlags syscall.IFF_LOOPBACK =? 0),
           (Z.land rawFlags syscall.IFF_POINTOPOINT =? 0),
           (Z.land rawFlags syscall.IFF_MULTICAST =? 0);
    vm_compute; split; congruence.
Qed.

Lemma load32_range ifr off : 0 ≤ load32 ifr off < 4294967296.
Proof.
  unfold load32. pose proof (le_uint_range (take 4 (drop off ifr))) as H.
  assert (length (take 4 (drop off ifr)) ≤ 4)%nat as Hl by (rewrite length_take; lia).
  assert (256 ^ Z.of_nat (length (take 4 (drop off ifr))) ≤ 256 ^ 4)
    by (apply Z.pow_le_mono_r; lia).
  lia.
Qed.

Lemma IfAddrmsg_Index_range ifam index :
  IfAddrmsg_Index ifam = Done index → 0 ≤ index < 4294967296.
Proof.
  unfold IfAddrmsg_Index. intros [= <-].
  apply (le_uint_range [ifam 4%nat; ifam 5%nat; ifam 6%nat; ifam 7%nat]).
Qed.

Section TableInvariants.
Context {W : Type} (host : Host W).

Lemma nameToMTU_range name (st : state W) mtu :
  (nameToMTU host name st).1 = Done (Ok mtu) →
  (String.length name < syscall.IFNAMSIZ)%nat ∧ -2147483648 ≤ mtu < 2147483648.
Proof.
  unfold nameToMTU. destruct (decide _) as [|Hlen]; [done|].
  unfold bind, open_socket, request, ioctl, bind, request, close_socket, request, ret.
  destruct (Socket host _ _ _ (world st)) as [[fd|e] w]; [|done]. simpl.
  destruct (Syscall_IOCTL host _ _ _ w) as [[e1 out] w2]. simpl.
  destruct (decide (e1 ≠ 0)); [done|]. simpl. intros [= <-]. split; [lia|].
  pose proof (load32_range (resize ifReq_len x00 out) syscall.IFNAMSIZ).
  unfold int32_of_bits. destruct (Z.ltb_spec (load32 (resize ifReq_len x00 out) syscall.IFNAMSIZ)
                                             2147483648); lia.
Qed.

Lemma nameToFlags_range name (st : state W) flags :
  (nameToFlags host name st).1 = Done (Ok flags) → 0 ≤ flags < 64.
Proof.
  unfold nameToFlags. destruct (decide _) as [|Hlen]; [done|].
  unfold bind, open_socket, request, ioctl, bind, request, close_socket, request, ret.
  destruct (Socket host _ _ _ (world st)) as [[fd|e] w]; [|done]. simpl.
  destruct (Syscall_IOCTL host _ _ _ w) as [[e1 out] w2]. simpl.
  destruct (decide (e1 ≠ 0)); [done|]. simpl. intros [= <-]. apply linkFlags_range.
Qed.

Lemma newLink_record ifam (st : state W) ifi :
  (newLink host ifam st).1 = Done (Some ifi) →
  well_formed ifi ∧
  ∀ index, IfAddrmsg_Index ifam = Done index →
           Index ifi = int_of_uint32 (GOARCH host) index.
Proof.
  unfold newLink, bind, lift, ret.
  destruct (IfAddrmsg_Index ifam) as [index|]; [|done].
  destruct (indexToName host index st) as [[[name|e]|f] s1]; [|done..].
  pose proof (nameToMTU_range name s1) as Hmtu.
  destruct (nameToMTU host name s1) as [[[mtu|e]|f] s2]; [|done..].
  pose proof (nameToFlags_range name s2) as Hflags.
  destruct (nameToFlags host name s2) as [[[flags|e]|f] s3]; [|done..].
  simpl. intros [= <-]. destruct (Hmtu mtu eq_refl). specialize (Hflags flags eq_refl).
  split; [unfold well_formed; simpl; repeat split; (done || lia)|]. by intros ? [= <-].
Qed.

(** What the loop keeps: the records are well formed, no index is there
    twice, and the index of every record has been seen. *)
Lemma interfaceTable_loop_keeps ifindex msgs :
  ∀ (im : gset Z) ift (st : state W) ift' st',
    Forall well_formed ift →
    NoDup (Index <$> ift) →
    Forall (fun ifi => ∃ i, i ∈ im ∧ 0 ≤ i < 4294967296 ∧
                            Index ifi = int_of_uint32 (GOARCH host) i) ift →
    interfaceTable_loop host ifindex msgs im ift st = (Done ift', st') →
    Forall well_formed ift' ∧ NoDup (Index <$> ift').
Proof.
  induction msgs as [|m rest IH]; intros im ift st ift' st' Hwf Hnd Hseen; simpl.
  { by intros [= <- <-]. }
  destruct (decide (NlMsghdr_Type (Header m) = syscall.NLMSG_DONE)).
  { by intros [= <- <-]. }
  destruct (decide (NlMsghdr_Type (Header m) = syscall.RTM_NEWADDR)); [|by apply IH].
  unfold bind at 1, lift at 1. destruct (IfAddrmsg_at m) as [ifam|]; [|done].
  unfold bind at 1, lift at 1.
  destruct (IfAddrmsg_Index ifam) as [index|] eqn:Ei; [|done].
  pose proof (IfAddrmsg_Index_range _ _ Ei) as Hrange.
  destruct (decide (index ∈ im)) as [Hin|Hin]; [by apply IH|].
  assert (Forall (fun ifi => ∃ i, i ∈ ({[index]} ∪ im : gset Z) ∧ 0 ≤ i < 4294967296 ∧
                                  Index ifi = int_of_uint32 (GOARCH host) i) ift) as Hseen'.
  { eapply Forall_impl; [exact Hseen|]. intros ifi (i & Hi & ? & ?).
    exists i. split; [|done]. apply elem_of_union. by right. }
  destruct (decide (ifindex = 0 ∨ _)); [|by apply IH].
  unfold bind. pose proof (newLink_record ifam st) as Hrec.
  destruct (newLink host ifam st) as [[[ifi|]|f] s1]; [| |done].
  - destruct (Hrec ifi eq_refl) as [Hwfi Hidx]. specialize (Hidx index Ei).
    assert (Forall well_formed (ift ++ [ifi])) as Hwf'.
    { apply Forall_app. split; [done|]. by constructor. }
    assert (NoDup (Index <$> ift ++ [ifi])) as Hnd'.
    { rewrite fmap_app. apply NoDup_app. split_and!; [done| |apply NoDup_singleton].
      intros x Hx Hx'. apply list_elem_of_fmap in Hx as (ifi0 & -> & Hifi0).
      rewrite Forall_forall in Hseen. destruct (Hseen ifi0 Hifi0) as (i & Hi & Hri & Heq).
      simpl in Hx'. apply list_elem_of_singleton in Hx'.
      rewrite Heq, Hidx in Hx'. apply int_of_uint32_inj in Hx'; [|done..].
      by subst i. }
    destruct (decide (ifindex = _)); [by intros [= <- <-]|].
    apply IH; [done..|].
    apply Forall_app. split; [done|]. constructor; [|done].
    exists index. split; [|done]. apply elem_of_union. left. by apply elem_of_singleton.
  - destruct (decide (ifindex = _)); [by intros [= <- <-]|]. by apply IH.
Qed.

Lemma interfaceTable_keeps ifindex (st : state W) ift :
  (interfaceTable host ifindex st).1 = Done (Ok ift) →
  Forall well_formed ift ∧ NoDup (Index <$> ift).
Proof.
  unfold interfaceTable, bind, request, ret.
  destruct (NetlinkRIB host _ _ (world st)) as [[tab|err] w]; [|done].
  destruct (ParseNetlinkMessage host tab) as [msgs|err]; [|done].
  destruct (interfaceTable_loop host ifindex msgs ∅ [] _) as [[ift'|f] s] eqn:E; [|done].
  simpl. intros [= <-].
  by eapply (interfaceTable_loop_keeps ifindex msgs ∅ []); [constructor..|exact E].
Qed.

End TableInvariants.

(** X12. Every record of the interface table is fully resolved and of one
    shape, whatever the kernel answered: its name is shorter than the name
    buffer, its flags are among the six translated ones, its MTU fits 32
    signed bits, and it never has a hardware address. *)
Theorem interfaceTable_records_well_formed {W} (host : Host W) (ifindex : Z)
    (st : state W) (ift : list Interface) :
  (interfaceTable host ifindex st).1 = Done (Ok ift) →
  Forall well_formed ift.
Proof.
  intros H. by apply interfaceTable_keeps in H as [? _].
Qed.

Lemma interfaceTable_records_well_formed_witness :
  ∃ ift,
    (interfaceTable Sample.two_links 0 (initial tt)).1 = Done (Ok ift) ∧
    length ift = 2%nat ∧ Forall well_formed ift.
Proof.
  destruct (interfaceTable Sample.two_links 0 (initial tt)).1 as [[ift|]|] eqn:E;
    [|vm_compute in E; discriminate..].
  exists ift. split_and!; [done| |].
  - revert E. vm_compute. by intros [= <-].
  - by apply (interfaceTable_records_well_formed Sample.two_links 0 (initial tt)).
Defined.

(** X13. The interface table never holds two records of one index, for
    any target, any stream and any outcome of the queries. *)
Theorem interfaceTable_no_index_twice {W} (host : Host W) (ifindex : Z)
    (st : state W) (ift : list Interface) :
  (interfaceTable host ifindex st).1 = Done (Ok ift) →
  NoDup (Index <$> ift).
Proof.
  intros H. by apply interfaceTable_keeps in H as [_ ?].
Qed.

Lemma interfaceTable_no_index_twice_witness :
  ∃ ift,
    (interfaceTable Sample.two_links 0 (initial tt)).1 = Done (Ok ift) ∧
    Index <$> ift = [1; 2] ∧ NoDup (Index <$> ift).
Proof.
  destruct (interfaceTable Sample.two_links 0 (initial tt)).1 as [[ift|]|] eqn:E;
    [|vm_compute in E; discriminate..].
  exists ift. split_and!; [done| |].
  - revert E. vm_compute. by intros [= <-].
  - by apply (interfaceTable_no_index_twice Sample.two_links 0 (initial tt)).
Defined.

(** ** Requests made when addresses are listed *)

(** X14. Listing the addresses of a given interface over netlink makes
    one request, the dump: no socket is opened and no ioctl made, whatever
    the dump holds. *)
Theorem InterfaceAddrsByInterface_one_request {W} (host : Host W) (ifi : Interface)
    (st : state W) :
  customAndroidApiLevel st = android11ApiLevel →
  (InterfaceAddrsByInterface host (Some ifi) st).2 =
  {| world := (NetlinkRIB host syscall.RTM_GETADDR syscall.AF_UNSPEC (world st)).2;
     customAndroidApiLevel := customAndroidApiLevel st;
     trace := trace st ++ [CallNetlinkRIB syscall.RTM_GETADDR syscall.AF_UNSPEC] |}.
Proof.
  intros Hlvl.
  assert (androidApiLevel host st = (Done android11ApiLevel, st)) as Hgate.
  { unfold androidApiLevel. rewrite decide_True by (by rewrite Hlvl).
    unfold ret. by rewrite Hlvl. }
  unfold InterfaceAddrsByInterface, bind at 1. rewrite Hgate.
  rewrite decide_False by (unfold android11ApiLevel; lia).
  unfold InterfaceAddrsByInterface_netlink, interfaceAddrTable, bind, request, ret, lift.
  destruct (NetlinkRIB host _ _ (world st)) as [[tab|err] w]; [|done].
  destruct (ParseNetlinkMessage host tab) as [msgs|err]; [|done].
  by destruct (addrTable host [] (Some ifi) msgs) as [[ifat|err]|f].
Qed.

Lemma InterfaceAddrsByInterface_one_request_witness :
  trace (InterfaceAddrsByInterface Sample.two_links
           (Some {| Index := 2; MTU := 1500; Name := "wlan0"; HardwareAddr := [];
                    Flags := 51 |})
           (Sample.started 11)).2 =
  [CallNetlinkRIB syscall.RTM_GETADDR syscall.AF_UNSPEC].
Proof.
  rewrite InterfaceAddrsByInterface_one_request; reflexivity.
Defined.

(** X15. Listing the addresses of all interfaces asks for the dump twice.
    The addresses are read from the first dump; the second one, asked for
    afterwards, only gives the interface table, and of that only whether
    it is empty is used. *)
Theorem InterfaceAddrs_two_dumps {W} (host : Host W) (st s2 : state W)
    (tab : list byte) (w1 : W) (msgs : list NetlinkMessage) (ift : list Interface) :
  customAndroidApiLevel st = android11ApiLevel →
  NetlinkRIB host syscall.RTM_GETADDR syscall.AF_UNSPEC (world st) = (Ok tab, w1) →
  ParseNetlinkMessage host tab = Ok msgs →
  interfaceTable host 0
    {| world := w1;
       customAndroidApiLevel := customAndroidApiLevel st;
       trace := trace st ++ [CallNetlinkRIB syscall.RTM_GETADDR syscall.AF_UNSPEC] |} =
    (Done (Ok ift), s2) →
  InterfaceAddrs host st =
    (match addrTable host ift None msgs with
     | Done (Ok ifat) => Done (Ok ifat)
     | Done (Err err) => Done (Err (route_error err))
     | Fault f => Fault f
     end, s2) ∧
  ∃ evs,
    trace s2 =
    trace st ++ CallNetlinkRIB syscall.RTM_GETADDR syscall.AF_UNSPEC ::
                CallNetlinkRIB syscall.RTM_GETADDR syscall.AF_UNSPEC :: evs.
Proof.
  intros Hlvl Hrib Hparse Htab.
  assert (androidApiLevel host st = (Done android11ApiLevel, st)) as Hgate.
  { unfold androidApiLevel. rewrite decide_True by (by rewrite Hlvl).
    unfold ret. by rewrite Hlvl. }
  split.
  - unfold InterfaceAddrs, bind at 1. rewrite Hgate.
    rewrite decide_False by (unfold android11ApiLevel; lia).
    unfold InterfaceAddrs_netlink, bind at 1, interfaceAddrTable, bind at 1, request.
    rewrite Hrib, Hparse. unfold bind at 1. rewrite Htab.
    unfold lift, ret. by destruct (addrTable host ift None msgs) as [[ifat|err]|f].
  - revert Htab. unfold interfaceTable, bind at 1, request. simpl.
    destruct (NetlinkRIB host _ _ w1) as [[tab2|err] w2]; [|done].
    destruct (ParseNetlinkMessage host tab2) as [msgs2|err]; [|done].
    unfold bind, ret.
    set (st2 := {| world := w2; customAndroidApiLevel := _; trace := _ |}).
    destruct (frames_interfaceTable_loop host 0 msgs2 ∅ [] st2) as (_ & evs & Ht).
    destruct (interfaceTable_loop host 0 msgs2 ∅ [] st2) as [[ift2|f] s]; [|done].
    intros [= _ <-]. exists evs. simpl in Ht. rewrite Ht. unfold st2. simpl.
    by rewrite <- !app_assoc.
Qed.

Lemma InterfaceAddrs_two_dumps_witness :
  ∃ evs,
    trace (InterfaceAddrs Sample.two_links (Sample.started 11)).2 =
    CallNetlinkRIB syscall.RTM_GETADDR syscall.AF_UNSPEC ::
    CallNetlinkRIB syscall.RTM_GETADDR syscall.AF_UNSPEC :: evs.
Proof.
  destruct (interfaceTable Sample.two_links 0
              {| world := tt; customAndroidApiLevel := 30;
                 trace := [CallNetlinkRIB syscall.RTM_GETADDR syscall.AF_UNSPEC] |})
    as [r s2] eqn:Htab.
  assert (∃ ift, r = Done (Ok ift)) as [ift ->].
  { revert Htab. vm_compute. intros [= <- _]. by eexists. }
  destruct (InterfaceAddrs_two_dumps Sample.two_links (Sample.started 11) s2
              (Sample.dump two_links_records) tt two_links_records ift)
    as [Hrun [evs Hevs]].
  - reflexivity.
  - reflexivity.
  - vm_compute. reflexivity.
  - exact Htab.
  - exists evs. rewrite Hrun. exact Hevs.
Defined.

(** ** Checks of the arguments *)

(** X17. The checks of the arguments sit at different places. A nil
    interface is refused before the version is looked at, on every Android
    version and without any request. A non-positive index is refused only
    on the netlink path, again without any request; below Android 11 it is
    handed to the net package as it is. *)
Theorem argument_checks {W} (host : Host W) (st : state W) (index : Z) :
  InterfaceAddrsByInterface host None st =
    (Done (Err (OpError "route" "ip+net" errInvalidInterface)), st) ∧
  (index ≤ 0 → android11ApiLevel ≤ customAndroidApiLevel st →
   InterfaceByIndex host index st =
     (Done (Err (OpError "route" "ip+net" errInvalidInterfaceIndex)), st)) ∧
  (index ≤ 0 → 0 ≤ customAndroidApiLevel st < android11ApiLevel →
   InterfaceByIndex host index st =
     request (CallNetInterfaceByIndex index) (net_InterfaceByIndex host index) st).
Proof.
  split_and!.
  - reflexivity.
  - intros Hidx Hlvl. unfold InterfaceByIndex, bind, androidApiLevel.
    unfold android11ApiLevel in *. rewrite decide_True by lia. unfold ret.
    rewrite decide_False by lia.
    unfold InterfaceByIndex_netlink. by rewrite decide_True.
  - intros Hidx Hlvl. unfold InterfaceByIndex, bind, androidApiLevel.
    unfold android11ApiLevel in *. rewrite decide_True by lia. unfold ret.
    by rewrite decide_True by lia.
Qed.

Lemma argument_checks_witness :
  (InterfaceByIndex Sample.two_links 0 (Sample.started 11)).1 =
    Done (Err (OpError "route" "ip+net" errInvalidInterfaceIndex)) ∧
  trace (InterfaceByIndex Sample.two_links 0 (Sample.started 10)).2 =
    [CallNetInterfaceByIndex 0].
Proof.
  destruct (argument_checks Sample.two_links (Sample.started 11) 0) as (_ & H11 & _).
  destruct (argument_checks Sample.two_links (Sample.started 10) 0) as (_ & _ & H10).
  split.
  - rewrite H11; [reflexivity|lia|vm_compute; discriminate].
  - rewrite H10; [reflexivity|lia|]. vm_compute. split; [discriminate|reflexivity].
Defined.

(** ** Addresses of records without a local address *)

Lemma ipPointToPoint_false attrs : ¬ has_local attrs → ipPointToPoint attrs = false.
Proof.
  intros H. apply not_true_is_false. intros Ht. apply H.
  by apply ipPointToPoint_has_local.
Qed.

(** X18. In a record without a local-address attribute nothing is passed
    over: the address is built from the first attribute of the list,
    whatever its type. *)
Theorem newAddr_without_local {W} (host : Host W) (ifam : IfAddrmsgPtr)
    (family prefixlen : Z) (a : NetlinkRouteAttr) (rest : list NetlinkRouteAttr) :
  IfAddrmsg_Family ifam = Done family →
  IfAddrmsg_Prefixlen ifam = Done prefixlen →
  ¬ has_local (a :: rest) →
  (family = syscall.AF_INET → (4 ≤ length (Value a))%nat →
   ∃ v0 v1 v2 v3,
     take 4 (Value a) = [v0; v1; v2; v3] ∧
     newAddr host ifam (a :: rest) =
     Done (Some {| IP := net_IPv4 host v0 v1 v2 v3;
                   Mask := net_CIDRMask host prefixlen 32 |})) ∧
  (family = syscall.AF_INET6 →
   newAddr host ifam (a :: rest) =
   Done (Some {| IP := resize 16 x00 (Value a);
                 Mask := net_CIDRMask host prefixlen 128 |})).
Proof.
  intros Hf Hp Hloc.
  assert (newAddr host ifam (a :: rest) = build host family prefixlen a) as Hnew.
  { unfold newAddr. rewrite (ipPointToPoint_false _ Hloc).
    rewrite (newAddr_loop_chosen host false ifam family prefixlen) by done.
    unfold chosen_with. rewrite filter_cons_True; [done|].
    unfold skipped. by intros [? _]. }
  split.
  - intros -> Hlen. rewrite Hnew. unfold build. rewrite decide_True by done.
    destruct (index_byte_take4 (Value a) Hlen) as (v0 & v1 & v2 & v3 & Ht & -> & -> & -> & ->).
    by exists v0, v1, v2, v3.
  - intros ->. rewrite Hnew. unfold build. by rewrite decide_False, decide_True.
Qed.

Lemma newAddr_without_local_witness :
  let label := {| Attr := {| RtAttr_Len := 9; RtAttr_Type := 3 |};
                  Value := [x77; x6c; x61; x6e; x30] |} in
  let addr := {| Attr := {| RtAttr_Len := 8; RtAttr_Type := syscall.IFA_ADDRESS |};
                 Value := [x0a; x00; x00; x05] |} in
  newAddr (Sample.all_up [] 30) (Sample.ptr (Sample.ifaddrmsg syscall.AF_INET 24 2 [])) [label; addr] =
  Done (Some {| IP := Sample.IPv4 x77 x6c x61 x6e; Mask := [xff; xff; xff; x00] |}).
Proof.
  intros label addr.
  destruct (newAddr_without_local (Sample.all_up [] 30)
              (Sample.ptr (Sample.ifaddrmsg syscall.AF_INET 24 2 [])) syscall.AF_INET 24 label [addr])
    as [H4 _].
  - reflexivity.
  - reflexivity.
  - intros (l & Hl & Ht).
    apply elem_of_cons in Hl as [->|Hl]; [discriminate|].
    apply elem_of_cons in Hl as [->|Hl]; [discriminate|]. by apply elem_of_nil in Hl.
  - destruct H4 as (v0 & v1 & v2 & v3 & Ht & ->); [reflexivity|simpl; lia|].
    injection Ht as <- <- <- <-. reflexivity.
Defined.

(** ** The name of an interface *)

Lemma drop_nul_head l : head (drop_nul l) ≠ Some x00.
Proof.
  induction l as [|b l IH]; simpl; [done|].
  destruct (is_nul b) eqn:E; [done|]. simpl. intros [= ->]. by vm_compute in E.
Qed.

Lemma drop_nul_suffix l : ∃ pre, l = pre ++ drop_nul l.
Proof.
  induction l as [|b l [pre IH]]; simpl; [by exists []|].
  destruct (is_nul b); [|by exists []].
  exists (b :: pre). simpl. by rewrite <- IH.
Qed.

Lemma drop_nul_length l : (length (drop_nul l) ≤ length l)%nat.
Proof.
  destruct (drop_nul_suffix l) as [pre H]. rewrite H at 2. rewrite length_app. lia.
Qed.

Lemma drop_nul_last l : drop_nul l ≠ [] → last (drop_nul l) = last l.
Proof.
  intros Hne. destruct (drop_nul_suffix l) as [pre H]. rewrite H at 2.
  destruct (drop_nul l) as [|b d]; [done|]. by rewrite last_app_cons.
Qed.

(** What [bytes.Trim] leaves: no NUL at either end, and no more bytes
    than there were. *)
Lemma Trim_nul_ends l :
  head (Trim_nul l) ≠ Some x00 ∧ last (Trim_nul l) ≠ Some x00 ∧
  (length (Trim_nul l) ≤ length l)%nat.
Proof.
  unfold Trim_nul. split_and!.
  - rewrite head_reverse.
    destruct (decide (drop_nul (reverse (drop_nul l)) = [])) as [->|Hne]; [done|].
    rewrite drop_nul_last by done. rewrite last_reverse. apply drop_nul_head.
  - rewrite last_reverse. apply drop_nul_head.
  - rewrite length_reverse.
    etrans; [apply drop_nul_length|]. rewrite length_reverse. apply drop_nul_length.
Qed.

Lemma length_string_of_list_byte l :
  String.length (String.string_of_list_byte l) = length l.
Proof.
  induction l as [|b l IH]; simpl; [done|]. by rewrite <- IH.
Qed.

(** X19. Whatever the kernel left in the request, a name the name query
    returns has at most sixteen bytes and neither starts nor ends with a
    NUL: the NUL bytes at both ends of the first sixteen bytes are cut
    off. *)
Theorem indexToName_trims_the_name {W} (host : Host W) (index : Z)
    (st : state W) (name : string) :
  (indexToName host index st).1 = Done (Ok name) →
  (String.length name ≤ syscall.IFNAMSIZ)%nat ∧
  head (String.list_byte_of_string name) ≠ Some x00 ∧
  last (String.list_byte_of_string name) ≠ Some x00.
Proof.
  unfold indexToName, bind, open_socket, request, ioctl, bind, request, close_socket,
    request, ret.
  destruct (Socket host _ _ _ (world st)) as [[fd|e] w]; [|done]. simpl.
  destruct (Syscall_IOCTL host _ _ _ w) as [[e1 out] w2]. simpl.
  destruct (decide (e1 ≠ 0)); [done|]. simpl. intros [= <-].
  rewrite String.list_byte_of_string_of_list_byte, length_string_of_list_byte.
  destruct (Trim_nul_ends (take syscall.IFNAMSIZ (resize ifReq_len x00 out)))
    as (Hh & Hl & Hlen).
  split_and!; [|done..].
  etrans; [exact Hlen|]. rewrite length_take. lia.
Qed.

Lemma indexToName_trims_the_name_witness :
  (indexToName Sample.two_links 2 (initial tt)).1 = Done (Ok "wlan0") ∧
  (String.length "wlan0" ≤ syscall.IFNAMSIZ)%nat.
Proof.
  assert ((indexToName Sample.two_links 2 (initial tt)).1 = Done (Ok "wlan0")) as H
    by (vm_compute; reflexivity).
  split; [exact H|].
  by destruct (indexToName_trims_the_name Sample.two_links 2 (initial tt) "wlan0" H).
Defined.

(** ** Listing all addresses with an empty interface table *)

(** X20. With an empty interface table and no target interface, as when
    every interface was dropped, [addrTable] gets as far as the first
    new-address record and no further: it returns the empty list when an
    end-of-dump record or the end of the stream comes first, and stops on
    a nil dereference at a new-address record with a payload that comes
    before any end-of-dump record. *)
Theorem addrTable_empty_table {W} (host : Host W)
    (pre : list NetlinkMessage) (m : NetlinkMessage) (post : list NetlinkMessage) :
  Forall (fun x => ¬ is_newaddr x) pre →
  addrTable host [] None pre = Done (Ok []) ∧
  (is_done m → addrTable host [] None (pre ++ m :: post) = Done (Ok [])) ∧
  (Forall (fun x => ¬ is_done x) pre → is_newaddr m → Data m ≠ [] →
   addrTable host [] None (pre ++ m :: post) = Fault NilDereference).
Proof.
  intros Hpre. unfold addrTable.
  induction Hpre as [|x pre Hx _ (IH1 & IH2 & IH3)]; simpl.
  - split_and!; [done| |].
    + intros Hd. by rewrite decide_True.
    + intros _ Hn Hdata. rewrite decide_False; last first.
      { intros Hd. unfold is_newaddr in Hn. rewrite Hn in Hd. done. }
      rewrite decide_True by done. by rewrite IfAddrmsg_at_nonempty.
  - destruct (decide (NlMsghdr_Type (Header x) = syscall.NLMSG_DONE)) as [Hd|Hd].
    + split_and!; [done..|]. intros Hnd. inversion Hnd as [|? ? Hxd _]. destruct (Hxd Hd).
    + rewrite !decide_False by done. split_and!; [done..|].
      intros Hnd. inversion Hnd as [|? ? _ Hnd']. by apply IH3.
Qed.

Lemma addrTable_empty_table_witness :
  addrTable (Sample.all_down [] 30) [] None
    (Sample.nlmsg 16 [] :: Sample.one_link) = Fault NilDereference.
Proof.
  destruct (addrTable_empty_table (Sample.all_down [] 30) [Sample.nlmsg 16 []]
              (Sample.newaddr syscall.AF_INET 24 2
                 (Sample.rtattr syscall.IFA_ADDRESS [x0a; x00; x00; x05]))
              [Sample.done]) as (_ & _ & Hnil).
  - repeat constructor. discriminate.
  - apply Hnil; [repeat constructor; discriminate|reflexivity|discriminate].
Defined.
